(** * Carbon-Intensity-API: range splitting, retry and half-hour rounding

    A shallow embedding of [carbon_intensity_api.py]
    (class [CarbonIntensityAPI]) and the properties of its three
    algorithms: [_nearest_hh], [_fetch_url] and [between].

    Modelling conventions.
    - A [datetime] is a count of microseconds on its own wall clock
      (Python's naive arithmetic is exact on that count: no leap seconds)
      together with its [tzinfo].  A [tzinfo] gives a UTC offset for each
      wall clock, fixed as for [pytz.utc] and [datetime.timezone] or
      changing as for a zone with daylight saving; arithmetic keeps the
      [tzinfo] and moves the wall clock, comparison and subtraction follow
      Python's rule for values of one [tzinfo] object and of two.  A
      value has [fold = 0], the default of the constructor and of every
      result of arithmetic.  The timeline is unbounded: the interpreter's
      [OverflowError] outside years 1..9999 is not part of the model.
    - A [timedelta] is a signed count of microseconds.
    - The outside world (HTTP server, [sleep]) is a trace of events; the
      server is a function of the trace so far and of the request.
    - Exceptions are values of [PyExc]; a computation returns a value or
      raises, and threads the world. *)

From Stdlib Require Import ZArith List Bool String Ascii Lia.
From Equations Require Import Equations.
Import ListNotations.
Set Warnings "-register-all".
Open Scope string_scope.
Open Scope Z_scope.
Open Scope list_scope.

(** ** Time *)

Module Time.

(** [datetime.timedelta], normalised to microseconds. *)
Definition timedelta_t := Z.

Definition timedelta (days minutes seconds : Z) : timedelta_t :=
  days * 86400000000 + minutes * 60000000 + seconds * 1000000.

Definition minutes (m : Z) : timedelta_t := timedelta 0 m 0.
Definition days (d : Z) : timedelta_t := timedelta d 0 0.

(** A [tzinfo] object.  Its UTC offset is a function of the wall clock,
    constant between changes: [tz_base] before the first change, and from
    each wall-clock time in [tz_changes] on, the offset given with it
    ([datetime.timezone] and [pytz.utc] have no change; a zone with
    daylight saving has two a year).  Python compares [tzinfo] objects
    with [is]: two values are the same object when they agree on
    [tz_id] and on the rule. *)
Record tzinfo_t := mkTz {
  tz_id : N;
  tz_base : Z;
  tz_changes : list (Z * Z) }.

Fixpoint rule_offset (base : Z) (changes : list (Z * Z)) (x : Z) : Z :=
  match changes with
  | [] => base
  | (t, off) :: rest => if t <=? x then rule_offset off rest x else base
  end.

(** No [tzinfo] of Python gives an offset outside the open interval from
    -24 h to 24 h ([utcoffset] raises [ValueError] there): the rule of a
    record is read inside that interval, so that every record stands for
    a [tzinfo] the interpreter accepts. *)
Definition day_us : Z := 86400000000.
Definition in_day (off : Z) : Z := Z.max (1 - day_us) (Z.min (day_us - 1) off).

(** [tz.utcoffset(dt)] for the wall clock [x] of [dt]. *)
Definition utcoffset (tz : tzinfo_t) (x : Z) : Z :=
  in_day (rule_offset (tz_base tz) (tz_changes tz) x).

Fixpoint changes_eqb (a b : list (Z * Z)) : bool :=
  match a, b with
  | [], [] => true
  | (t, o) :: a', (t', o') :: b' =>
      (t =? t') && (o =? o') && changes_eqb a' b'
  | _, _ => false
  end.

Definition tz_eqb (a b : tzinfo_t) : bool :=
  N.eqb (tz_id a) (tz_id b) && (tz_base a =? tz_base b)
  && changes_eqb (tz_changes a) (tz_changes b).

(** [a is b] for the [tzinfo] attributes of two values. *)
Definition same_tzinfo (a b : option tzinfo_t) : bool :=
  match a, b with
  | Some x, Some y => tz_eqb x y
  | None, None => true
  | _, _ => false
  end.

(** The offset of a [tzinfo] attribute at a wall clock; none for a naive
    value. *)
Definition offset_at (tz : option tzinfo_t) (x : Z) : Z :=
  match tz with Some z => utcoffset z x | None => 0 end.

(** The offset never changes. *)
Definition fixed_offset (tz : option tzinfo_t) : Prop :=
  forall x y, offset_at tz x = offset_at tz y.

(** [datetime.datetime]: [us] counts microseconds of wall-clock time;
    [tzinfo] is [None] for a naive value. *)
Record datetime := mkdt { us : Z; tzinfo : option tzinfo_t }.

Definition minute (dt : datetime) : Z := (us dt / 60000000) mod 60.
Definition second (dt : datetime) : Z := (us dt / 1000000) mod 60.
Definition microsecond (dt : datetime) : Z := us dt mod 1000000.
Definition hour (dt : datetime) : Z := (us dt / 3600000000) mod 24.

(** [dt + td] and [dt - td] act on the wall clock and keep [tzinfo]. *)
Definition add (dt : datetime) (td : timedelta_t) : datetime :=
  mkdt (us dt + td) (tzinfo dt).
Definition sub (dt : datetime) (td : timedelta_t) : datetime :=
  mkdt (us dt - td) (tzinfo dt).

(** [dt.utcoffset()], and the instant the value denotes (what
    [isoformat] writes down). *)
Definition offset (dt : datetime) : Z := offset_at (tzinfo dt) (us dt).
Definition utc (dt : datetime) : Z := us dt - offset dt.

(** [a < b].  Two values with the same [tzinfo] object compare by wall
    clock, without looking at the offset; otherwise each offset is taken
    at its own wall clock and the instants are compared.  (Two naive
    values compare by wall clock; [between] never compares a naive value
    with an aware one, which Python refuses.) *)
Definition ltb (a b : datetime) : bool :=
  if same_tzinfo (tzinfo a) (tzinfo b) then us a <? us b
  else utc a <? utc b.

(** Python's [min(a, b)]: [b] when [b < a], otherwise [a]. *)
Definition min (a b : datetime) : datetime := if ltb b a then b else a.

(** [b - a], with the same rule as the comparison. *)
Definition diff (b a : datetime) : timedelta_t :=
  if same_tzinfo (tzinfo b) (tzinfo a) then us b - us a
  else utc b - utc a.

Lemma changes_eqb_eq (a b : list (Z * Z)) : changes_eqb a b = true -> a = b.
Proof.
  revert b. induction a as [|[t o] a IH]; intros [|[t' o'] b]; simpl;
    try discriminate; [reflexivity|].
  intros H. apply andb_prop in H as [H Hab]. apply andb_prop in H as [Ht Ho].
  apply Z.eqb_eq in Ht, Ho. subst. now rewrite (IH b Hab).
Qed.

Lemma same_tzinfo_eq (a b : option tzinfo_t) :
  same_tzinfo a b = true -> a = b.
Proof.
  destruct a as [[i x ca]|], b as [[i' x' cb]|]; simpl;
    try discriminate; [|reflexivity].
  unfold tz_eqb; simpl. intros H.
  apply andb_prop in H as [H Hc]. apply andb_prop in H as [Hi Hx].
  apply N.eqb_eq in Hi. apply Z.eqb_eq in Hx. apply changes_eqb_eq in Hc.
  now subst.
Qed.

Lemma offset_bound (dt : datetime) : - day_us < offset dt < day_us.
Proof.
  unfold offset, offset_at, utcoffset, in_day, day_us.
  destruct (tzinfo dt); lia.
Qed.

Lemma us_add (dt : datetime) (td : timedelta_t) : us (add dt td) = us dt + td.
Proof. reflexivity. Qed.

(** With a fixed offset, arithmetic moves the instant as it moves the
    wall clock. *)
Lemma utc_add (dt : datetime) (td : timedelta_t) :
  fixed_offset (tzinfo dt) -> utc (add dt td) = utc dt + td.
Proof.
  intros Hf. unfold utc, offset, add; simpl.
  rewrite (Hf (us dt + td) (us dt)). lia.
Qed.

Lemma utc_sub (dt : datetime) (td : timedelta_t) :
  fixed_offset (tzinfo dt) -> utc (sub dt td) = utc dt - td.
Proof.
  intros Hf. unfold utc, offset, sub; simpl.
  rewrite (Hf (us dt - td) (us dt)). lia.
Qed.

(** Past this wall clock a value with [tzinfo] [tz] is not before
    [end_]. *)
Definition limit (end_ : datetime) (tz : option tzinfo_t) : Z :=
  if same_tzinfo tz (tzinfo end_) then us end_ else utc end_ + day_us.

Lemma ltb_limit (a end_ : datetime) :
  ltb a end_ = true -> us a < limit end_ (tzinfo a).
Proof.
  unfold ltb, limit. destruct (same_tzinfo (tzinfo a) (tzinfo end_)).
  - apply Z.ltb_lt.
  - intros H. apply Z.ltb_lt in H. unfold utc in H at 1.
    pose proof (offset_bound a). lia.
Qed.

(** A wall-clock time of day on day 0, for examples. *)
Definition at_time (h m s micro : Z) (tz : option tzinfo_t) : datetime :=
  mkdt (h * 3600000000 + m * 60000000 + s * 1000000 + micro) tz.

(** Half-hour boundary: minute 0 or 30, no seconds, no microseconds. *)
Definition on_half_hour (dt : datetime) : Prop :=
  (minute dt = 0 \/ minute dt = 30) /\ second dt = 0 /\ microsecond dt = 0.

Definition on_half_hourb (dt : datetime) : bool :=
  ((minute dt =? 0) || (minute dt =? 30)) && (second dt =? 0)
  && (microsecond dt =? 0).

End Time.

Import Time.

(** ** [CarbonIntensityAPI._nearest_hh] *)

(** [if not(dt.minute % 30 == 0 and dt.second == 0 and dt.microsecond == 0):
       dt = dt - timedelta(minutes=dt.minute%30, seconds=dt.second)
               + timedelta(minutes=30)
     return dt] *)
Definition _nearest_hh (dt : datetime) : datetime :=
  if negb ((minute dt mod 30 =? 0) && (second dt =? 0) && (microsecond dt =? 0))
  then add (sub dt (timedelta 0 (minute dt mod 30) (second dt))) (minutes 30)
  else dt.

(** ** Exceptions, the world, and computations *)

(** Exceptions raised by [requests.get] other than [HTTPError]. *)
Inductive TransportError :=
| ConnectionError
| Timeout
| TooManyRedirects
| OtherTransportError (name : string).

Inductive PyExc :=
| Exception (msg : string)          (* [raise Exception(msg)] of this module *)
| HTTPError                         (* [requests.exceptions.HTTPError] *)
| Transport (e : TransportError)
| KeyError (key : string)
| TypeError
| AttributeError
| ValueError.

Definition msg_datetimes : string :=
  "Start and end must be timezone-aware Python datetime objects.".
Definition msg_type : string :=
  "Type must be either 'national' or 'regional'.".
Definition msg_communication : string :=
  "Error communicating with the Carbon Intensity API.".

(** The two error kinds of the specification, as the exceptions the
    module raises for them. *)
Definition InvalidInputError (e : PyExc) : Prop :=
  e = Exception msg_datetimes \/ e = Exception msg_type.

(** Decoded JSON.  Numbers are carried through the module untouched. *)
Inductive Json :=
| JNull
| JBool (b : bool)
| JNum (mantissa exponent : Z)
| JStr (s : string)
| JArr (items : list Json)
| JObj (members : list (string * Json)).

(** The request: [f"{self.base_url}{endpoint.format(from, to)}"], kept as
    its four parts. *)
Record Url := mkUrl {
  url_base : string;
  url_endpoint : string;
  url_from : datetime;
  url_to : datetime }.

(** What one GET meets: a response with a status code and a body that
    decodes ([Some]) or does not ([None]), or a transport failure. *)
Inductive Outcome :=
| Responded (status_code : Z) (body : option Json)
| Aborted (e : TransportError).

Inductive Event :=
| EvGet (url : Url) (headers : list (string * string)) (o : Outcome)
| EvSleep (delay : Z).

Definition World := list Event.

(** The server answers a request knowing all that happened before. *)
Definition Server := World -> Url -> Outcome.

Inductive Result (A : Type) :=
| Ok (a : A)
| Raise (e : PyExc).
Arguments Ok {A} a.
Arguments Raise {A} e.

Definition M (A : Type) : Type := World -> Result A * World.

Definition ret {A} (a : A) : M A := fun w => (Ok a, w).
Definition raise {A} (e : PyExc) : M A := fun w => (Raise e, w).
Definition bind {A B} (m : M A) (k : A -> M B) : M B :=
  fun w => match m w with
           | (Ok a, w') => k a w'
           | (Raise e, w') => (Raise e, w')
           end.
Definition lift {A} (r : Result A) : M A := fun w => (r, w).

Declare Scope py_scope.
Delimit Scope py_scope with py.
Notation "x <- m ;; k" := (bind m (fun x => k))
  (at level 100, m at next level, right associativity) : py_scope.
Notation "m ;; k" := (bind m (fun _ => k))
  (at level 100, right associativity) : py_scope.
Open Scope py_scope.

Definition inspect {A} (a : A) : {b | a = b} := exist _ a eq_refl.

(** The GET events of a trace, in order, and the waits. *)
Definition is_get (e : Event) : bool :=
  match e with EvGet _ _ _ => true | EvSleep _ => false end.
Definition gets (w : World) : list Event := filter is_get w.
Fixpoint sleeps (w : World) : list Z :=
  match w with
  | [] => []
  | EvSleep d :: w' => d :: sleeps w'
  | EvGet _ _ _ :: w' => sleeps w'
  end.
Fixpoint requested (w : World) : list Url :=
  match w with
  | [] => []
  | EvGet u _ _ :: w' => u :: requested w'
  | EvSleep _ :: w' => requested w'
  end.

(** ** The object *)

(** The attributes set by [__init__].  The last field is the class
    invariant that makes the splitting loop of [between] advance: every
    maximum window is a positive duration. *)
Record CarbonIntensityAPI := mkAPI {
  base_url : string;
  max_range : list (string * timedelta_t);
  retries : Z;
  headers : list (string * string);
  max_range_positive : forallb (fun kv => 0 <? snd kv) max_range = true }.

Definition __init__ (retries : Z) : CarbonIntensityAPI :=
  {| base_url := "https://api.carbonintensity.org.uk";
     max_range := [("national", days 14); ("regional", days 14)];
     retries := retries;
     headers := [("Accept", "application/json")];
     max_range_positive := eq_refl |}.

(** ** [requests] and [time.sleep] *)

Record Response := mkResponse { status_code : Z; body : option Json }.

(** [success] is [True] once a page passed [raise_for_status]. *)
Definition success (page : option Response) : bool :=
  match page with Some _ => true | None => false end.

Section Fetch.

Variable server : Server.

Definition requests_get (url : Url) (hdrs : list (string * string))
  : M Response :=
  fun w =>
    let o := server w url in
    (match o with
     | Responded st b => Ok (mkResponse st b)
     | Aborted e => Raise (Transport e)
     end, (w ++ [EvGet url hdrs o])%list).

(** [Response.raise_for_status]: 4xx and 5xx raise [HTTPError]. *)
Definition raise_for_status (page : Response) : M unit :=
  if (400 <=? status_code page) && (status_code page <? 600)
  then raise HTTPError else ret tt.

(** [Response.json]. *)
Definition json (page : Response) : M Json :=
  match body page with
  | Some j => ret j
  | None => raise ValueError
  end.

Definition sleep (delay : Z) : M unit :=
  fun w => (Ok tt, (w ++ [EvSleep delay])%list).

(** ** [CarbonIntensityAPI._fetch_url] *)

Variable self : CarbonIntensityAPI.

(** The body of the [try]:
    [page = requests.get(url, params={}, headers=self.headers)
     page.raise_for_status()] *)
Definition attempt (url : Url) : M Response :=
  page <- requests_get url (headers self) ;;
  raise_for_status page ;;
  ret page.

(** The [while not success and try_counter < self.retries + 1] loop.
    [success] and [page] travel together: [page] is [Some] exactly when
    [success] is [True] (a page bound by a failed attempt is never
    read).  [except: raise] re-raises what it caught. *)
Equations? fetch_loop (url : Url) (page : option Response)
    (try_counter delay : Z) (w : World)
  : Result (option Response) * World
  by wf (Z.to_nat (retries self + 1 - try_counter)) lt :=
  fetch_loop url page try_counter delay w
    with inspect (negb (success page)
                  && (try_counter <? retries self + 1)) => {
    | exist _ false _ := (Ok page, w);
    | exist _ true _ with attempt url w => {
      | (Ok p, w1) := fetch_loop url (Some p) (try_counter + 1) delay w1;
      | (Raise HTTPError, w1) :=
          fetch_loop url None (try_counter + 1) (delay * 2)
                     (snd (sleep delay w1));
      | (Raise e, w1) := (Raise e, w1) } }.
Proof.
  all: apply andb_prop in e as [_ Hlt]; apply Z.ltb_lt in Hlt; lia.
Qed.

(** [if not success: raise Exception(...)]
    [try: return page.json()  except: raise Exception(...)] *)
Definition _fetch_url (url : Url) : M Json :=
  fun w =>
    match fetch_loop url None 0 1 w with
    | (Ok None, w') => (Raise (Exception msg_communication), w')
    | (Ok (Some page), w') =>
        match json page w' with
        | (Ok j, w'') => (Ok j, w'')
        | (Raise _, w'') => (Raise (Exception msg_communication), w'')
        end
    | (Raise e, w') => (Raise e, w')
    end.

(** [query_api] *)
Definition query_api (url : Url) : M Json := _fetch_url url.

End Fetch.

(** ** Python values met by the parser *)

Module Py.

(** Pure code that may raise. *)
Definition rbind {A B} (r : Result A) (k : A -> Result B) : Result B :=
  match r with Ok a => k a | Raise e => Raise e end.

Fixpoint mapM {A B} (f : A -> Result B) (l : list A) : Result (list B) :=
  match l with
  | [] => Ok []
  | a :: l' =>
      rbind (f a) (fun b => rbind (mapM f l') (fun bs => Ok (b :: bs)))
  end.

Fixpoint assoc {V} (key : string) (d : list (string * V)) : option V :=
  match d with
  | [] => None
  | (k, v) :: d' => if String.eqb k key then Some v else assoc key d'
  end.

(** [d[key]] on a dict with string keys. *)
Definition dict_getitem {V} (d : list (string * V)) (key : string)
  : Result V :=
  match assoc key d with Some v => Ok v | None => Raise (KeyError key) end.

(** [j[key]] with a string key: only a dict can be indexed so. *)
Definition getitem (j : Json) (key : string) : Result Json :=
  match j with
  | JObj d => dict_getitem d key
  | _ => Raise TypeError
  end.

(** [j.get(key, default)]: a method of dicts only. *)
Definition get {A} (inj : Json -> A) (j : Json) (key : string) (default : A)
  : Result A :=
  match j with
  | JObj d => Ok (match assoc key d with Some v => inj v | None => default end)
  | _ => Raise AttributeError
  end.

Fixpoint chars (s : string) : list Json :=
  match s with
  | EmptyString => []
  | String c s' => JStr (String c EmptyString) :: chars s'
  end.

(** [for x in j]: a list yields its items, a dict its keys, a string
    its characters; nothing else iterates. *)
Definition iter (j : Json) : Result (list Json) :=
  match j with
  | JArr l => Ok l
  | JObj d => Ok (map (fun kv => JStr (fst kv)) d)
  | JStr s => Ok (chars s)
  | _ => Raise TypeError
  end.

(** A dict key must be hashable: lists and dicts are not. *)
Definition hashable (j : Json) : bool :=
  match j with JArr _ | JObj _ => false | _ => true end.

(** [str.lower] on ASCII letters. *)
Definition lower_ascii (c : ascii) : ascii :=
  let n := nat_of_ascii c in
  if (65 <=? n)%nat && (n <=? 90)%nat then ascii_of_nat (n + 32) else c.

Fixpoint lower (s : string) : string :=
  match s with
  | EmptyString => EmptyString
  | String c s' => String (lower_ascii c) (lower s')
  end.

(** [x in (a, b, ...)] for strings. *)
Definition str_in (x : string) (l : list string) : bool :=
  existsb (String.eqb x) l.

End Py.

(** ** pandas *)

Module Pd.

(** A cell holds a decoded JSON value, numpy's [nan], or a timestamp
    made by [pd.to_datetime]. *)
Inductive Cell :=
| Val (j : Json)
| NaN
| Timestamp (t : datetime).

Record DataFrame := mkDF {
  columns : list string;
  rows : list (list Cell) }.

(** [pd.DataFrame(data, columns=...)] *)
Definition DataFrame_ (data : list (list Cell)) (cols : list string)
  : DataFrame := mkDF cols data.

Fixpoint index_of (name : string) (cols : list string) : option nat :=
  match cols with
  | [] => None
  | c :: cols' =>
      if String.eqb c name then Some 0%nat
      else option_map S (index_of name cols')
  end.

Fixpoint update_nth {A} (n : nat) (f : A -> Result A) (l : list A)
  : Result (list A) :=
  match l, n with
  | [], _ => Ok []
  | a :: l', O => Py.rbind (f a) (fun a' => Ok (a' :: l'))
  | a :: l', S n' => Py.rbind (update_nth n' f l') (fun r => Ok (a :: r))
  end.

(** [df[name] = conv(df[name])] for a cell-wise conversion. *)
Definition convert_column (conv : Cell -> Result Cell) (name : string)
    (df : DataFrame) : Result DataFrame :=
  match index_of name (columns df) with
  | None => Raise (KeyError name)
  | Some i =>
      Py.rbind (Py.mapM (update_nth i conv) (rows df))
               (fun rs => Ok (mkDF (columns df) rs))
  end.

Fixpoint somes {A} (l : list (option A)) : list A :=
  match l with
  | [] => []
  | Some a :: l' => a :: somes l'
  | None :: l' => somes l'
  end.

(** [pd.concat(objs, ignore_index=True)]: [None] entries are dropped;
    with nothing left it raises [ValueError].  The frames this module
    concatenates have the same columns, so rows follow one another. *)
Definition concat (objs : list (option DataFrame)) : Result DataFrame :=
  match somes objs with
  | [] => Raise ValueError
  | df :: dfs => Ok (mkDF (columns df) (rows df ++ flat_map rows dfs))
  end.

End Pd.

Import Pd.

Notation "x <~ r ;; k" := (Py.rbind r (fun x => k))
  (at level 100, r at next level, right associativity) : py_scope.

(** ** [CarbonIntensityAPI._parse_fromto_json] *)

(** What the parser returns: one table for "national", a pair of tables
    otherwise. *)
Inductive Parsed :=
| Table (data : DataFrame)
| Tables (carbon_data fuel_mix_data : DataFrame).

Definition fuel_mix_labels : list string :=
  ["biomass"; "coal"; "imports"; "gas"; "nuclear"; "other"; "hydro";
   "solar"; "wind"].

Section Parse.

(** [pd.to_datetime(_, utc=True, infer_datetime_format=True)] on one
    cell of the column. *)
Variable to_datetime : Cell -> Result Cell.

(** [[d["to"], d["intensity"].get("forecast", nan),
      d["intensity"].get("actual", nan), d["intensity"]["index"]]] *)
Definition national_row (d : Json) : Result (list Cell) :=
  to <~ Py.getitem d "to" ;;
  i1 <~ Py.getitem d "intensity" ;;
  forecast <~ Py.get Val i1 "forecast" NaN ;;
  i2 <~ Py.getitem d "intensity" ;;
  actual <~ Py.get Val i2 "actual" NaN ;;
  i3 <~ Py.getitem d "intensity" ;;
  index <~ Py.getitem i3 "index" ;;
  Ok [Val to; forecast; actual; Val index].

(** [[datum["to"], region["regionid"],
      region["intensity"].get("forecast", nan),
      region["intensity"].get("actual", nan),
      region["intensity"]["index"]]] *)
Definition carbon_row (datum region : Json) : Result (list Cell) :=
  to <~ Py.getitem datum "to" ;;
  regionid <~ Py.getitem region "regionid" ;;
  i1 <~ Py.getitem region "intensity" ;;
  forecast <~ Py.get Val i1 "forecast" NaN ;;
  i2 <~ Py.getitem region "intensity" ;;
  actual <~ Py.get Val i2 "actual" NaN ;;
  i3 <~ Py.getitem region "intensity" ;;
  index <~ Py.getitem i3 "index" ;;
  Ok [Val to; Val regionid; forecast; actual; Val index].

(** One item of [{f["fuel"]: f["perc"] for f in region["generationmix"]}]. *)
Definition fuel_item (f : Json) : Result (Json * Json) :=
  fuel <~ Py.getitem f "fuel" ;;
  perc <~ Py.getitem f "perc" ;;
  if Py.hashable fuel then Ok (fuel, perc) else Raise TypeError.

(** [fuel_mix[l]]: the dict keeps the last value stored under a key,
    and only a string key equals the string [l]. *)
Fixpoint fuel_lookup (items : list (Json * Json)) (l : string)
  : option Json :=
  match items with
  | [] => None
  | (JStr k, v) :: items' =>
      match fuel_lookup items' l with
      | Some v' => Some v'
      | None => if String.eqb k l then Some v else None
      end
  | _ :: items' => fuel_lookup items' l
  end.

Definition fuel_getitem (items : list (Json * Json)) (l : string)
  : Result Cell :=
  match fuel_lookup items l with
  | Some v => Ok (Val v)
  | None => Raise (KeyError l)
  end.

(** The body of the inner [for region in datum["regions"]]: the row
    appended to [carbon_list] and the row appended to [fuel_mix_list]. *)
Definition region_rows (datum region : Json)
  : Result (list Cell * list Cell) :=
  crow <~ carbon_row datum region ;;
  gm <~ Py.getitem region "generationmix" ;;
  fs <~ Py.iter gm ;;
  fuel_mix <~ Py.mapM fuel_item fs ;;
  to <~ Py.getitem datum "to" ;;
  regionid <~ Py.getitem region "regionid" ;;
  shares <~ Py.mapM (fuel_getitem fuel_mix) fuel_mix_labels ;;
  Ok (crow, [Val to; Val regionid] ++ shares)%list.

Definition datum_rows (datum : Json)
  : Result (list (list Cell * list Cell)) :=
  rs <~ Py.getitem datum "regions" ;;
  regions <~ Py.iter rs ;;
  Py.mapM (region_rows datum) regions.

Definition _parse_fromto_json (response : Json) (type_ : string)
  : Result Parsed :=
  if String.eqb type_ "national" then
    ds <~ Py.getitem response "data" ;;
    items <~ Py.iter ds ;;
    data_list <~ Py.mapM national_row items ;;
    let data :=
      DataFrame_ data_list ["timestamp"; "forecast"; "actual"; "index"] in
    data <~ convert_column to_datetime "timestamp" data ;;
    Ok (Table data)
  else
    ds <~ Py.getitem response "data" ;;
    items <~ Py.iter ds ;;
    per_datum <~ Py.mapM datum_rows items ;;
    let carbon_list := map fst (List.concat per_datum) in
    let fuel_mix_list := map snd (List.concat per_datum) in
    let carbon_data :=
      DataFrame_ carbon_list
                 ["timestamp"; "regionid"; "forecast"; "actual"; "index"] in
    carbon_data <~ convert_column to_datetime "timestamp" carbon_data ;;
    let fuel_mix_data :=
      DataFrame_ fuel_mix_list
                 (["timestamp"; "regionid"] ++ fuel_mix_labels)%list in
    fuel_mix_data <~ convert_column to_datetime "timestamp" fuel_mix_data ;;
    Ok (Tables carbon_data fuel_mix_data).

End Parse.

(** ** [CarbonIntensityAPI.between] *)

Lemma max_range_pos (self : CarbonIntensityAPI) (type_ : string) (mr : Z) :
  Py.assoc type_ (max_range self) = Some mr -> 0 < mr.
Proof.
  pose proof (max_range_positive self) as Hall.
  induction (max_range self) as [|[k v] d IH]; simpl in *; [discriminate|].
  apply andb_prop in Hall as [Hv Hd].
  destruct (String.eqb k type_).
  - intros [= <-]. now apply Z.ltb_lt.
  - now apply IH.
Qed.

(** Pages still to request when the cursor is at [cur] and the range
    stops at [stop], both read on one clock. *)
Definition pages_left (mr stop cur : Z) : nat :=
  Z.to_nat ((stop - cur + mr - 1) / mr).

Lemma pages_left_step (mr stop cur : Z) :
  0 < mr -> cur < stop ->
  pages_left mr stop cur = S (pages_left mr stop (cur + mr)).
Proof.
  intros Hmr Hlt. unfold pages_left.
  replace (stop - cur + mr - 1) with ((stop - (cur + mr) + mr - 1) + 1 * mr)
    by lia.
  rewrite Z.div_add by lia.
  assert (0 <= (stop - (cur + mr) + mr - 1) / mr)
    by (apply Z.div_pos; lia).
  lia.
Qed.

Lemma pages_left_done (mr stop cur : Z) :
  0 < mr -> stop <= cur -> pages_left mr stop cur = 0%nat.
Proof.
  intros Hmr Hle. unfold pages_left.
  assert ((stop - cur + mr - 1) / mr < 1)
    by (apply Z.div_lt_upper_bound; lia).
  lia.
Qed.

Section Between.

Variable server : Server.
Variable to_datetime : Cell -> Result Cell.
Variable self : CarbonIntensityAPI.

(** [carbon_ = data if type == "national" else data[0]].  The parser
    chooses its shape by the same test, so a single table is met only
    for "national" and a pair only otherwise; the two mixed cases are
    never reached. *)
Definition carbon_of (type_ : string) (data : Parsed) : Result DataFrame :=
  match String.eqb type_ "national", data with
  | true, Table d => Ok d
  | false, Tables c _ => Ok c
  | true, Tables _ _ => Raise TypeError
  | false, Table _ => Raise (KeyError "0")
  end.

(** [gen_mix_ = None if type == "national" else data[1]] *)
Definition gen_mix_of (type_ : string) (data : Parsed)
  : Result (option DataFrame) :=
  match String.eqb type_ "national", data with
  | true, _ => Ok None
  | false, Tables _ g => Ok (Some g)
  | false, Table _ => Raise (KeyError "1")
  end.

(** [if acc is None: acc = new  else: acc = pd.concat((acc, new), ...)] *)
Definition accumulate (acc new : option DataFrame)
  : Result (option DataFrame) :=
  match acc with
  | None => Ok new
  | Some _ => df <~ Pd.concat [acc; new] ;; Ok (Some df)
  end.

Definition request_end_of (mr : timedelta_t) (end_ request_start : datetime)
  : datetime :=
  Time.min end_ (sub (add request_start mr) (minutes 30)).

(** One pass through the body of the [while], up to the cursor update:
    the new [carbon] and [gen_mix]. *)
Definition between_body (type_ endpoint : string) (mr : timedelta_t)
    (end_ request_start : datetime) (carbon gen_mix : option DataFrame)
  : M (option DataFrame * option DataFrame) :=
  let request_end := request_end_of mr end_ request_start in
  let url := mkUrl (base_url self) endpoint request_start request_end in
  response <- query_api server self url ;;
  data <- lift (_parse_fromto_json to_datetime response type_) ;;
  carbon_ <- lift (carbon_of type_ data) ;;
  gen_mix_ <- lift (gen_mix_of type_ data) ;;
  carbon <- lift (accumulate carbon (Some carbon_)) ;;
  gen_mix <- lift (accumulate gen_mix gen_mix_) ;;
  ret (carbon, gen_mix).

(** [while request_start < end: ...; request_start += self.max_range[type]]
    with [mr] the value of [self.max_range[type]], which the loop never
    changes. *)
Equations? between_loop (type_ endpoint : string) (mr : timedelta_t)
    (mr_pos : 0 < mr) (end_ request_start : datetime)
    (carbon gen_mix : option DataFrame) (w : World)
  : Result (option DataFrame * option DataFrame) * World
  by wf (pages_left mr (limit end_ (tzinfo request_start))
                    (us request_start)) lt :=
  between_loop type_ endpoint mr mr_pos end_ request_start carbon gen_mix w
    with inspect (Time.ltb request_start end_) => {
    | exist _ false _ := (Ok (carbon, gen_mix), w);
    | exist _ true _
        with between_body type_ endpoint mr end_ request_start
                          carbon gen_mix w => {
      | (Ok (carbon', gen_mix'), w1) :=
          between_loop type_ endpoint mr mr_pos end_ (add request_start mr)
                       carbon' gen_mix' w1;
      | (Raise e, w1) := (Raise e, w1) } }.
Proof.
  apply ltb_limit in e. simpl.
  rewrite (pages_left_step mr (limit end_ (tzinfo request_start))
                           (us request_start)) by assumption.
  lia.
Qed.

Definition is_none {A} (o : option A) : bool :=
  match o with None => true | Some _ => false end.

Definition between (start end_ : datetime) (type_ : string)
  : M (option DataFrame * option DataFrame) :=
  (* [isinstance(start, datetime) and isinstance(end, datetime)] holds
     by typing *)
  let type_check := negb (true && true) in
  let tz_check := is_none (tzinfo start) || is_none (tzinfo end_) in
  if type_check || tz_check then raise (Exception msg_datetimes) else
  let start := _nearest_hh start in
  let end_ := _nearest_hh end_ in
  let type_ := Py.lower type_ in
  if negb (Py.str_in type_ ["national"; "regional"])
  then raise (Exception msg_type) else
  let endpoint :=
    if String.eqb type_ "regional" then "/regional/intensity/{}/{}"
    else "/intensity/{}/{}" in
  let carbon := None in
  let gen_mix := None in
  let request_start := start in
  match inspect (Py.assoc type_ (max_range self)) with
  | exist _ None _ => raise (KeyError type_)
  | exist _ (Some mr) Hmr =>
      between_loop type_ endpoint mr (max_range_pos self type_ mr Hmr)
                   end_ request_start carbon gen_mix
  end.

End Between.

(** * Observations on traces *)

(** [raise_for_status] raises on exactly these status codes. *)
Definition failure_status (st : Z) : bool := (400 <=? st) && (st <? 600).

(** The attempt ended in an HTTP failure status. *)
Definition http_failure (o : Outcome) : bool :=
  match o with
  | Responded st _ => failure_status st
  | Aborted _ => false
  end.

Definition attempt_failed (e : Event) : bool :=
  match e with
  | EvGet _ _ o => http_failure o
  | EvSleep _ => false
  end.

(** The trace [ext], played after [w], shows at every GET the answer the
    server gives at that point. *)
Fixpoint served (server : Server) (w : World) (ext : list Event) : Prop :=
  match ext with
  | [] => True
  | EvGet u h o :: ext' =>
      o = server w u /\ served server (w ++ [EvGet u h o]) ext'
  | EvSleep d :: ext' => served server (w ++ [EvSleep d]) ext'
  end.

(** Failed attempts, each followed by its wait; the wait doubles. *)
Fixpoint backoff (url : Url) (hdrs : list (string * string)) (delay : Z)
    (os : list Outcome) : list Event :=
  match os with
  | [] => []
  | o :: os' =>
      EvGet url hdrs o :: EvSleep delay :: backoff url hdrs (delay * 2) os'
  end.

(** The waits of a run: [d], [2d], [4d], ... one per failed attempt. *)
Fixpoint doubling (d : Z) (n : nat) : list Z :=
  match n with
  | O => []
  | S n' => d :: doubling (d * 2) n'
  end.

(** How the retry loop stops: attempts used up, a page that passed the
    status check, or a transport exception. *)
Inductive Ending :=
| Exhausted
| Fetched (st : Z) (b : option Json)
| Broken (te : TransportError).

Definition ending_events (url : Url) (hdrs : list (string * string))
    (e : Ending) : list Event :=
  match e with
  | Exhausted => []
  | Fetched st b => [EvGet url hdrs (Responded st b)]
  | Broken te => [EvGet url hdrs (Aborted te)]
  end.

Definition loop_result (e : Ending) : Result (option Response) :=
  match e with
  | Exhausted => Ok None
  | Fetched st b => Ok (Some (mkResponse st b))
  | Broken te => Raise (Transport te)
  end.

Definition fetch_result (e : Ending) : Result Json :=
  match e with
  | Exhausted => Raise (Exception msg_communication)
  | Fetched _ (Some j) => Ok j
  | Fetched _ None => Raise (Exception msg_communication)
  | Broken te => Raise (Transport te)
  end.

Definition ending_ok (n : nat) (os : list Outcome) (e : Ending) : Prop :=
  match e with
  | Exhausted => List.length os = n
  | Fetched st _ => failure_status st = false /\ (List.length os < n)%nat
  | Broken _ => (List.length os < n)%nat
  end.

(** The [i]-th request window of a call to [between]: it starts [i]
    maximum windows after the rounded start and ends at
    [min(end, cursor + maxRange - 30min)]. *)
Definition window (base endpoint : string) (mr : timedelta_t)
    (end_ start : datetime) (i : nat) : Url :=
  let cursor := add start (Z.of_nat i * mr) in
  mkUrl base endpoint cursor
        (Time.min end_ (sub (add cursor mr) (minutes 30))).

(** Requests made page after page: [c] requests for page [i], then the
    next page. *)
Fixpoint blocks (f : nat -> Url) (i : nat) (counts : list nat) : list Url :=
  match counts with
  | [] => []
  | c :: cs => repeat (f i) c ++ blocks f (S i) cs
  end.

Definition endpoint_of (type_ : string) : string :=
  if String.eqb type_ "regional" then "/regional/intensity/{}/{}"
  else "/intensity/{}/{}".

(** The sum of the waits of a trace. *)
Definition total (l : list Z) : Z := fold_right Z.add 0 l.

(** A GET for [url] with headers [hdrs], or a wait. *)
Definition get_for (url : Url) (hdrs : list (string * string)) (ev : Event)
  : Prop :=
  match ev with
  | EvGet u h _ => u = url /\ h = hdrs
  | EvSleep _ => True
  end.

(** A carbon row and a generation-mix row made for the same region of
    the same period: five and eleven cells, starting with the same
    period end and region. *)
Definition same_region (pr : list Cell * list Cell) : Prop :=
  exists t r rest shares,
    fst pr = Val t :: Val r :: rest /\ List.length rest = 3%nat
    /\ snd pr = Val t :: Val r :: shares /\ List.length shares = 9%nat.

(** [j.get(key, nan)] as a cell. *)
Definition cell_or_nan (i : list (string * Json)) (key : string) : Cell :=
  match Py.assoc key i with Some v => Val v | None => NaN end.

(** A "national" item [d]: a dict whose ["to"] is [t] and whose
    ["intensity"] is the dict [i]. *)
Definition national_item (d : Json) (t : Json) (i : list (string * Json))
  : Prop :=
  exists md,
    d = JObj md /\ Py.assoc "to" md = Some t
    /\ Py.assoc "intensity" md = Some (JObj i).

(** The carbon table and the generation-mix table of a parsed page, and
    the rows of a table that may be absent. *)
Definition carbon_part (p : Parsed) : DataFrame :=
  match p with Table d => d | Tables c _ => c end.
Definition mix_part (p : Parsed) : option DataFrame :=
  match p with Table _ => None | Tables _ g => Some g end.
Definition rows_of (o : option DataFrame) : list (list Cell) :=
  match o with Some d => rows d | None => [] end.

(** The mode check of [between], on the argument as given. *)
Definition valid_type (type_ : string) : bool :=
  Py.str_in (Py.lower type_) ["national"; "regional"].

(** [ceil(a / b)] for a positive [b]. *)
Definition ceil_div (a b : Z) : Z := (a + b - 1) / b.

(** * Concrete servers and pages *)

Module Examples.

(** [pytz.utc]: no offset, no change. *)
Definition UTC : tzinfo_t := mkTz 0 0 [].
Definition utc_tz : option tzinfo_t := Some UTC.

(** A zone with the rule of Europe/London in 2020, days counted from
    2020-03-01: one hour ahead of UTC from 02:00 on 29 March (day 28)
    until 02:00 on 25 October (day 238). *)
Definition london : tzinfo_t :=
  mkTz 1 0 [(days 28 + minutes 120, minutes 60); (days 238 + minutes 120, 0)].

(** Day [d] at the given time of day, on the clock of [london]. *)
Definition london_time (d h m : Z) : datetime :=
  add (at_time h m 0 0 (Some london)) (days d).

(** A server that answers 500 to everything. *)
Definition always_500 : Server := fun _ _ => Responded 500 None.

(** A server that answers 500 to the first two requests it sees and a
    page from the third on. *)
Definition third_time (j : Json) : Server :=
  fun w _ =>
    if (List.length (gets w) <? 2)%nat then Responded 503 None
    else Responded 200 (Some j).

(** A server whose connection drops on the second request. *)
Definition drops_second : Server :=
  fun w _ =>
    if (List.length (gets w) =? 1)%nat then Aborted ConnectionError
    else Responded 500 None.

(** A server that answers 200 with a body that is not JSON. *)
Definition garbled : Server := fun _ _ => Responded 200 None.

Definition fixed_page (j : Json) : Server :=
  fun _ _ => Responded 200 (Some j).

Definition national_page : Json :=
  JObj [("data",
         JArr [JObj [("from", JStr "2020-04-01T00:00Z");
                     ("to", JStr "2020-04-01T00:30Z");
                     ("intensity",
                      JObj [("forecast", JNum 190 0);
                            ("actual", JNum 186 0);
                            ("index", JStr "moderate")])]])].

Definition mix : Json :=
  JArr (map (fun l => JObj [("fuel", JStr l); ("perc", JNum 111 (-1))])
            fuel_mix_labels).

Definition region (id : Z) : Json :=
  JObj [("regionid", JNum id 0);
        ("intensity", JObj [("forecast", JNum 55 0);
                            ("index", JStr "low")]);
        ("generationmix", mix)].

Definition regional_page : Json :=
  JObj [("data",
         JArr [JObj [("from", JStr "2020-04-01T00:00Z");
                     ("to", JStr "2020-04-01T00:30Z");
                     ("regions", JArr [region 1; region 2])]])].

(** A stand-in for [pd.to_datetime] that keeps the cell. *)
Definition keep_cell (c : Cell) : Result Cell := Ok c.

(** Two "national" items: the first without an actual value, the second
    with the index only. *)
Definition two_items : list Json :=
  [JObj [("to", JStr "2020-04-01T00:30Z");
         ("intensity",
          JObj [("forecast", JNum 210 0); ("index", JStr "moderate")])];
   JObj [("to", JStr "2020-04-01T01:00Z");
         ("intensity", JObj [("index", JStr "low")])]].

Definition two_items_page : list (string * Json) :=
  [("data", JArr two_items)].

Definition some_url : Url :=
  mkUrl "https://api.carbonintensity.org.uk" "/intensity/{}/{}"
        (at_time 0 30 0 0 utc_tz) (at_time 24 0 0 0 utc_tz).

(** Day [d] at the given time of day, UTC. *)
Definition day_time (d h m : Z) : datetime :=
  add (at_time h m 0 0 utc_tz) (days d).

(** The range of the package's own example: from 00:30 on day 1 to
    14:00 on day 17. *)
Definition range_start : datetime := day_time 1 0 30.
Definition range_end : datetime := day_time 17 14 0.

(** A range that starts on the clock of [london] and ends on the UTC
    clock: from 00:00 on 16 March, London time, to 23:30 UTC on
    29 March. *)
Definition march_start : datetime := london_time 15 0 0.
Definition march_end : datetime := day_time 28 23 30.
Definition march_run : Result (option DataFrame * option DataFrame) * World :=
  between (fixed_page national_page) keep_cell (__init__ 3)
          march_start march_end "national" [].

(** Two ranges on the clock of [london]: from 00:00 on 12 October to
    23:30 on 25 October, the day the clock goes back; and from 01:30 to
    02:00 on 29 March, the day the clock goes forward. *)
Definition october_start : datetime := london_time 225 0 0.
Definition october_end : datetime := london_time 238 23 30.
Definition october_run : Result (option DataFrame * option DataFrame) * World :=
  between always_500 keep_cell (__init__ 0)
          october_start october_end "national" [].

Definition gap_start : datetime := london_time 28 1 30.
Definition gap_end : datetime := london_time 28 2 0.
Definition gap_run : Result (option DataFrame * option DataFrame) * World :=
  between always_500 keep_cell (__init__ 0) gap_start gap_end "national" [].

(** What the parser makes of [national_page]. *)
Definition national_table : Parsed :=
  Table (DataFrame_
           [[Val (JStr "2020-04-01T00:30Z"); Val (JNum 190 0);
             Val (JNum 186 0); Val (JStr "moderate")]]
           ["timestamp"; "forecast"; "actual"; "index"]).

Definition regional_run
  : Result (option DataFrame * option DataFrame) * World :=
  between (fixed_page regional_page) keep_cell (__init__ 3)
          range_start range_end "Regional" [].

Definition regional_result : option DataFrame * option DataFrame :=
  match fst regional_run with
  | Ok r => r
  | Raise _ => (None, None)
  end.

(** A server whose page depends on the window asked for: one national
    item labelled with the start of the window. *)
Definition echo_page (u : Url) : Json :=
  JObj [("data",
         JArr [JObj [("to", JNum (us (url_from u)) 0);
                     ("intensity", JObj [("index", JStr "low")])]])].
Definition echo_server : Server := fun _ u => Responded 200 (Some (echo_page u)).
Definition echo_table (u : Url) : Parsed :=
  Table (mkDF ["timestamp"; "forecast"; "actual"; "index"]
              [[Val (JNum (us (url_from u)) 0); NaN; NaN; Val (JStr "low")]]).

End Examples.

(** * Properties *)

(** ** Half-hour rounding *)

Section Rounding.

Lemma mod_60_30 (a : Z) : (a mod 60) mod 30 = a mod 30.
Proof.
  change 60 with (30 * 2). rewrite Z.rem_mul_r by lia.
  rewrite (Z.mul_comm 30), Z.mod_add by lia. apply Z.mod_mod. lia.
Qed.

(** The position inside the half hour, field by field. *)
Lemma clock_split (x : Z) :
  x mod 1800000000 =
  ((x / 60000000) mod 60 mod 30) * 60000000
  + ((x / 1000000) mod 60) * 1000000 + x mod 1000000.
Proof.
  rewrite mod_60_30.
  replace 1800000000 with (1000000 * 1800) by reflexivity.
  rewrite Z.rem_mul_r by lia.
  replace 1800 with (60 * 30) by reflexivity.
  rewrite Z.rem_mul_r by lia.
  rewrite Z.div_div by lia.
  replace (1000000 * 60) with 60000000 by reflexivity.
  lia.
Qed.

Lemma minute_0_or_30 (m : Z) :
  0 <= m < 60 -> m mod 30 = 0 -> m = 0 \/ m = 30.
Proof.
  intros Hb Hm. rewrite (Z.div_mod m 30), Hm by lia.
  assert (Hq : m / 30 = 0 \/ m / 30 = 1).
  { assert (0 <= m / 30) by (apply Z.div_pos; lia).
    assert (m / 30 < 2) by (apply Z.div_lt_upper_bound; lia).
    lia. }
  destruct Hq as [-> | ->]; [left | right]; reflexivity.
Qed.

Lemma minute_bound (dt : datetime) : 0 <= minute dt < 60.
Proof. unfold minute. apply Z.mod_pos_bound. lia. Qed.

(** Every multiple of half an hour is a boundary. *)
Lemma multiple_on_half_hour (k : Z) (tz : option tzinfo_t) :
  on_half_hour (mkdt (k * 1800000000) tz).
Proof.
  unfold on_half_hour, minute, second, microsecond; simpl.
  repeat split.
  - apply minute_0_or_30; [apply Z.mod_pos_bound; lia|].
    rewrite mod_60_30.
    replace (k * 1800000000) with (k * 30 * 60000000) by lia.
    rewrite Z.div_mul by lia. apply Z.mod_mul. lia.
  - replace (k * 1800000000) with (k * 1800 * 1000000) by lia.
    rewrite Z.div_mul by lia.
    replace (k * 1800) with (k * 30 * 60) by lia. apply Z.mod_mul. lia.
  - replace (k * 1800000000) with (k * 1800 * 1000000) by lia.
    apply Z.mod_mul. lia.
Qed.

(** What the function computes: a boundary is returned as it is; any
    other value moves to the start of the next half hour, plus the
    microseconds it had. *)
Lemma nearest_hh_formula (dt : datetime) :
  (on_half_hour dt /\ _nearest_hh dt = dt)
  \/ (~ on_half_hour dt
      /\ _nearest_hh dt =
         mkdt ((us dt / 1800000000 + 1) * 1800000000 + microsecond dt)
              (tzinfo dt)).
Proof.
  unfold _nearest_hh.
  destruct ((minute dt mod 30 =? 0) && (second dt =? 0)
            && (microsecond dt =? 0)) eqn:Hg; simpl.
  - left. apply andb_prop in Hg as [Hg Hu]. apply andb_prop in Hg as [Hm Hs].
    apply Z.eqb_eq in Hm, Hs, Hu. split; [|reflexivity].
    split; [|split]; try assumption.
    apply minute_0_or_30; [apply minute_bound | assumption].
  - right. split.
    + intros [Hm [Hs Hu]]. rewrite Hs, Hu in Hg.
      destruct Hm as [Hm | Hm]; rewrite Hm in Hg; discriminate.
    + unfold add, sub, minutes, timedelta; simpl. f_equal.
      pose proof (clock_split (us dt)) as Hc.
      pose proof (Z.div_mod (us dt) 1800000000) as Hd.
      unfold minute, second, microsecond in *. lia.
Qed.

(** A value on a boundary is left alone. *)
Lemma nearest_hh_fixed (dt : datetime) :
  on_half_hour dt -> _nearest_hh dt = dt.
Proof.
  intros Hb. destruct (nearest_hh_formula dt) as [[_ H] | [H _]];
    [assumption | contradiction].
Qed.

Lemma clock_split_dt (dt : datetime) :
  us dt mod 1800000000 =
  (minute dt mod 30) * 60000000 + second dt * 1000000 + microsecond dt.
Proof. apply clock_split. Qed.

Lemma second_bound (dt : datetime) : 0 <= second dt < 60.
Proof. unfold second. apply Z.mod_pos_bound. lia. Qed.

Lemma microsecond_bound (dt : datetime) : 0 <= microsecond dt < 1000000.
Proof. unfold microsecond. apply Z.mod_pos_bound. lia. Qed.

(** A boundary is a multiple of half an hour on the wall clock. *)
Lemma half_hour_iff (dt : datetime) :
  on_half_hour dt <-> us dt mod 1800000000 = 0.
Proof.
  rewrite clock_split_dt. unfold on_half_hour.
  pose proof (minute_bound dt) as Bm.
  pose proof (second_bound dt) as Bs.
  pose proof (microsecond_bound dt) as Bu.
  pose proof (Z.mod_pos_bound (minute dt) 30 ltac:(lia)) as Bm30.
  split.
  - intros [Hm [-> ->]].
    destruct Hm as [-> | ->]; reflexivity.
  - intros H0.
    assert (minute dt mod 30 = 0) as Hm by lia.
    split; [apply minute_0_or_30; assumption|]. lia.
Qed.

(** With no microseconds, the result is a boundary, not before the
    input and less than half an hour after it. *)
Lemma nearest_hh_whole_seconds (dt : datetime) :
  microsecond dt = 0 ->
  on_half_hour (_nearest_hh dt)
  /\ us dt <= us (_nearest_hh dt) < us dt + minutes 30.
Proof.
  intros Hu. destruct (nearest_hh_formula dt) as [[Hb ->] | [Hn ->]].
  - split; [assumption | unfold minutes, timedelta; lia].
  - rewrite Hu, Z.add_0_r. split; [apply multiple_on_half_hour|].
    simpl. unfold minutes, timedelta.
    rewrite half_hour_iff in Hn.
    pose proof (Z.div_mod (us dt) 1800000000 ltac:(lia)) as Hd.
    pose proof (Z.mod_pos_bound (us dt) 1800000000 ltac:(lia)) as Hb.
    lia.
Qed.

Lemma nearest_hh_tzinfo (dt : datetime) :
  tzinfo (_nearest_hh dt) = tzinfo dt.
Proof. unfold _nearest_hh. destruct (negb _); reflexivity. Qed.

(** The three worked cases: 12:00:00, 12:01:00 and 12:31:00. *)
Example nearest_hh_1200 (tz : option tzinfo_t) :
  _nearest_hh (at_time 12 0 0 0 tz) = at_time 12 0 0 0 tz.
Proof. reflexivity. Qed.

Example nearest_hh_1201 (tz : option tzinfo_t) :
  _nearest_hh (at_time 12 1 0 0 tz) = at_time 12 30 0 0 tz.
Proof. reflexivity. Qed.

Example nearest_hh_1231 (tz : option tzinfo_t) :
  _nearest_hh (at_time 12 31 0 0 tz) = at_time 13 0 0 0 tz.
Proof. reflexivity. Qed.

(** C2 (the code departs from the claim).  The rounding should return a
    half-hour boundary for every timestamp.  At 12:00:00.000001 the
    function returns 12:30:00.000001: the microsecond that made the
    value fail the boundary test is never subtracted, so the result is
    not on a boundary. *)
Theorem nearest_hh_keeps_microseconds (tz : option tzinfo_t) :
  _nearest_hh (at_time 12 0 0 1 tz) = at_time 12 30 0 1 tz
  /\ microsecond (_nearest_hh (at_time 12 0 0 1 tz)) = 1
  /\ ~ on_half_hour (_nearest_hh (at_time 12 0 0 1 tz)).
Proof.
  assert (E : _nearest_hh (at_time 12 0 0 1 tz) = at_time 12 30 0 1 tz)
    by (vm_compute; reflexivity).
  rewrite E. split; [reflexivity|].
  split; [vm_compute; reflexivity|].
  intros [_ [_ Hu]]. vm_compute in Hu. discriminate.
Qed.

End Rounding.

(** ** The retry loop *)

Section FetchProperties.

Variable server : Server.
Variable self : CarbonIntensityAPI.

Lemma fetch_loop_exit url page tc delay w :
  negb (success page) && (tc <? retries self + 1) = false ->
  fetch_loop server self url page tc delay w = (Ok page, w).
Proof.
  intros Hc. rewrite fetch_loop_equation_1.
  destruct (inspect (negb (success page) && (tc <? retries self + 1)))
    as [[|] Heq]; [congruence | reflexivity].
Qed.

Lemma fetch_loop_step url page tc delay w :
  negb (success page) && (tc <? retries self + 1) = true ->
  fetch_loop server self url page tc delay w =
    match attempt server self url w with
    | (Ok p, w1) => fetch_loop server self url (Some p) (tc + 1) delay w1
    | (Raise HTTPError, w1) =>
        fetch_loop server self url None (tc + 1) (delay * 2)
                   (snd (sleep delay w1))
    | (Raise e, w1) => (Raise e, w1)
    end.
Proof.
  intros Hc. rewrite fetch_loop_equation_1.
  destruct (inspect (negb (success page) && (tc <? retries self + 1)))
    as [[|] Heq]; [|congruence]. simpl.
  destruct (attempt server self url w) as [[p|e] w1]; simpl;
    [reflexivity | destruct e; reflexivity].
Qed.

(** One attempt, by what the server answers. *)
Lemma attempt_cases url w :
  attempt server self url w =
    (match server w url with
     | Responded st b =>
         if failure_status st then Raise HTTPError
         else Ok (mkResponse st b)
     | Aborted te => Raise (Transport te)
     end, w ++ [EvGet url (headers self) (server w url)])%list.
Proof.
  unfold attempt, bind, requests_get, raise_for_status, failure_status.
  destruct (server w url) as [st b | te]; simpl; [|reflexivity].
  destruct ((400 <=? st) && (st <? 600)); reflexivity.
Qed.

(** The whole run of the loop from [try_counter = tc]: some failed
    attempts with their waits, then the ending. *)
Lemma fetch_loop_run url :
  forall (n : nat) (tc delay : Z) (w : World),
    Z.to_nat (retries self + 1 - tc) = n ->
    exists os e,
      Forall (fun o => http_failure o = true) os
      /\ ending_ok n os e
      /\ served server w (backoff url (headers self) delay os
                          ++ ending_events url (headers self) e)
      /\ fetch_loop server self url None tc delay w =
         (loop_result e,
          w ++ backoff url (headers self) delay os
            ++ ending_events url (headers self) e)%list.
Proof.
  induction n as [|n IH]; intros tc delay w Hn.
  - exists [], Exhausted. simpl. rewrite app_nil_r.
    repeat split; [constructor|]. apply fetch_loop_exit. simpl.
    apply Z.ltb_ge. lia.
  - rewrite fetch_loop_step by (simpl; apply Z.ltb_lt; lia).
    rewrite attempt_cases.
    destruct (server w url) as [st b | te] eqn:Hsrv.
    + destruct (failure_status st) eqn:Hst.
      * destruct (IH (tc + 1) (delay * 2)
                    (w ++ [EvGet url (headers self) (Responded st b)]
                       ++ [EvSleep delay])%list ltac:(lia))
          as (os & e & Hos & Hend & Hserved & Hrun).
        exists (Responded st b :: os), e.
        split; [constructor; [exact Hst | exact Hos]|].
        split; [destruct e; simpl in *; try split; try tauto; lia|].
        split.
        { simpl. split; [symmetry; exact Hsrv|].
          rewrite <- app_assoc. exact Hserved. }
        unfold sleep; simpl. rewrite <- !app_assoc in *. simpl in *.
        exact Hrun.
      * exists [], (Fetched st b). simpl.
        split; [constructor|]. split; [split; [exact Hst | lia]|].
        split; [split; [symmetry; exact Hsrv | exact I]|].
        apply fetch_loop_exit. reflexivity.
    + exists [], (Broken te). simpl.
      split; [constructor|]. split; [lia|].
      split; [split; [symmetry; exact Hsrv | exact I]|]. reflexivity.
Qed.

(** [_fetch_url] as a whole. *)
Lemma fetch_url_run url w :
  exists os e,
    Forall (fun o => http_failure o = true) os
    /\ ending_ok (Z.to_nat (retries self + 1)) os e
    /\ served server w (backoff url (headers self) 1 os
                        ++ ending_events url (headers self) e)
    /\ _fetch_url server self url w =
       (fetch_result e,
        w ++ backoff url (headers self) 1 os
          ++ ending_events url (headers self) e)%list.
Proof.
  destruct (fetch_loop_run url (Z.to_nat (retries self + 1)) 0 1 w
              ltac:(f_equal; lia))
    as (os & e & Hos & Hend & Hserved & Hrun).
  exists os, e. repeat split; try assumption.
  unfold _fetch_url. rewrite Hrun.
  destruct e as [|st [j|]|te]; reflexivity.
Qed.

End FetchProperties.

(** ** Traces of the retry loop *)

Section TraceFacts.

Lemma gets_app (a b : World) : gets (a ++ b) = gets a ++ gets b.
Proof. apply filter_app. Qed.

Lemma requested_app (a b : World) :
  requested (a ++ b) = requested a ++ requested b.
Proof.
  induction a as [|[u h o|d] a IH]; simpl; [reflexivity | | exact IH].
  now rewrite IH.
Qed.

Lemma sleeps_app (a b : World) : sleeps (a ++ b) = sleeps a ++ sleeps b.
Proof.
  induction a as [|[u h o|d] a IH]; simpl; [reflexivity | exact IH |].
  now rewrite IH.
Qed.

Lemma requested_gets (a : World) :
  List.length (requested a) = List.length (gets a).
Proof.
  induction a as [|[u h o|d] a IH]; simpl; [reflexivity | | exact IH].
  now rewrite IH.
Qed.

Lemma served_app (server : Server) (a b : list Event) :
  forall w, served server w (a ++ b)
            <-> served server w a /\ served server (w ++ a) b.
Proof.
  induction a as [|[u h o|d] a IH]; intros w; simpl.
  - rewrite app_nil_r. tauto.
  - rewrite IH, <- app_assoc. simpl. tauto.
  - rewrite IH, <- app_assoc. simpl. tauto.
Qed.

Variables (url : Url) (hdrs : list (string * string)).

Lemma gets_backoff (os : list Outcome) :
  forall d, gets (backoff url hdrs d os) = map (EvGet url hdrs) os.
Proof.
  induction os as [|o os IH]; intros d; simpl; [reflexivity|].
  now rewrite <- (IH (d * 2)).
Qed.

Lemma requested_backoff (os : list Outcome) :
  forall d, requested (backoff url hdrs d os) = repeat url (List.length os).
Proof.
  induction os as [|o os IH]; intros d; simpl; [reflexivity|].
  now rewrite (IH (d * 2)).
Qed.

Lemma sleeps_backoff (os : list Outcome) :
  forall d, sleeps (backoff url hdrs d os) = doubling d (List.length os).
Proof.
  induction os as [|o os IH]; intros d; simpl; [reflexivity|].
  now rewrite (IH (d * 2)).
Qed.

Lemma failed_backoff (os : list Outcome) :
  Forall (fun o => http_failure o = true) os ->
  forall d, forallb attempt_failed (gets (backoff url hdrs d os)) = true.
Proof.
  intros Hos d. rewrite gets_backoff.
  induction Hos as [|o os Ho _ IH]; simpl; [reflexivity|].
  now rewrite Ho, IH.
Qed.

(** A GET found in a run is either one of the failed attempts, with
    events after it, or lies in what follows the failed attempts. *)
Lemma backoff_split (os : list Outcome) :
  forall d rest pre u h o post,
    backoff url hdrs d os ++ rest = pre ++ EvGet u h o :: post ->
    (In o os /\ post <> [])
    \/ exists pre', pre = backoff url hdrs d os ++ pre'
                    /\ rest = pre' ++ EvGet u h o :: post.
Proof.
  induction os as [|o1 os IH]; intros d rest pre u h o post Heq; simpl in *.
  - right. exists pre. split; [reflexivity | exact Heq].
  - destruct pre as [|x [|y pre]]; simpl in Heq.
    + injection Heq as _ _ Ho Hpost. left. split; [left; exact Ho|].
      rewrite <- Hpost. discriminate.
    + injection Heq as _ Habs. discriminate.
    + injection Heq as Hx Hy Heq.
      destruct (IH _ _ _ _ _ _ _ Heq) as [[Hin Hpost] | (pre' & Hpre & Hrest)].
      * left. split; [right; exact Hin | exact Hpost].
      * right. exists pre'. split; [|exact Hrest].
        now rewrite <- Hx, <- Hy, Hpre.
Qed.


End TraceFacts.

(** ** Claims about [_fetch_url] *)

Section FetchClaims.

Variable server : Server.
Variable self : CarbonIntensityAPI.
Variable url : Url.
Variable w : World.



(** C6.  Only an HTTP failure status is followed by anything: every
    GET of the trace that is not its last event met a failure status.
    A transport exception on any attempt ends the trace there and is
    the exception [_fetch_url] raises, as it is. *)
Theorem fetch_url_transport_error :
  exists ext,
    snd (_fetch_url server self url w) = w ++ ext
    /\ served server w ext
    /\ (forall pre u h o post,
           ext = pre ++ EvGet u h o :: post ->
           post <> [] -> http_failure o = true)
    /\ (forall pre u h te post,
           ext = pre ++ EvGet u h (Aborted te) :: post ->
           post = []
           /\ fst (_fetch_url server self url w) = Raise (Transport te)).
Proof.
  destruct (fetch_url_run server self url w)
    as (os & e & Hos & Hend & Hserved & Hrun).
  exists (backoff url (headers self) 1 os ++ ending_events url (headers self) e).
  rewrite Hrun; simpl.
  split; [reflexivity|]. split; [exact Hserved|].
  rewrite Forall_forall in Hos.
  split.
  - intros pre u h o post Heq Hpost.
    destruct (backoff_split _ _ _ _ _ _ _ _ _ _ Heq)
      as [[Hin _] | (pre' & _ & Hrest)]; [now apply Hos|].
    destruct e; simpl in Hrest.
    + destruct pre'; discriminate.
    + destruct pre' as [|x [|y pre']]; try discriminate.
      injection Hrest as _ _ _ Hnil. now symmetry in Hnil.
    + destruct pre' as [|x [|y pre']]; try discriminate.
      injection Hrest as _ _ _ Hnil. now symmetry in Hnil.
  - intros pre u h te post Heq.
    destruct (backoff_split _ _ _ _ _ _ _ _ _ _ Heq)
      as [[Hin _] | (pre' & _ & Hrest)].
    + apply Hos in Hin. discriminate.
    + destruct e; simpl in Hrest.
      * destruct pre'; discriminate.
      * destruct pre' as [|x [|y pre']]; discriminate.
      * destruct pre' as [|x [|y pre']]; try discriminate.
        injection Hrest as _ _ Hte Hnil. subst. split; reflexivity.
Qed.

End FetchClaims.

(** C5 (the code departs from the claim).  The waits are 1, 2, 4, ...,
    one after every failed attempt, and each should precede another
    attempt.  With [retries = 3] and a server that always answers 500,
    the four attempts are followed by four waits, 1, 2, 4 and 8: the
    last event before the error is raised is a wait of 8 that no attempt
    follows. *)
Theorem fetch_url_waits_after_last_attempt :
  let run := _fetch_url Examples.always_500 (__init__ 3) Examples.some_url [] in
  fst run = Raise (Exception msg_communication)
  /\ List.length (gets (snd run)) = 4%nat
  /\ sleeps (snd run) = [1; 2; 4; 8]
  /\ last (snd run) (EvSleep 0) = EvSleep 8.
Proof. vm_compute. repeat split. Qed.

Section BackoffFacts.

Variable server : Server.
Variable self : CarbonIntensityAPI.
Variable url : Url.
Variable w : World.

(** The waits of any call are 1, 2, 4, ...: one per failed attempt,
    placed right after it. *)
Lemma fetch_url_wait_schedule :
  exists ext,
    snd (_fetch_url server self url w) = w ++ ext
    /\ sleeps ext
       = doubling 1 (List.length (filter attempt_failed ext)).
Proof.
  destruct (fetch_url_run server self url w)
    as (os & e & Hos & Hend & Hserved & Hrun).
  exists (backoff url (headers self) 1 os ++ ending_events url (headers self) e).
  rewrite Hrun; simpl. split; [reflexivity|].
  rewrite sleeps_app, sleeps_backoff, filter_app, length_app.
  assert (Hf : forall d, List.length
                 (filter attempt_failed (backoff url (headers self) d os))
               = List.length os).
  { clear Hend Hserved Hrun.
    induction Hos as [|o os Ho _ IH]; intros d; simpl; [reflexivity|].
    rewrite Ho. simpl. now rewrite IH. }
  rewrite Hf.
  destruct e as [|st b|te]; simpl in *.
  - now rewrite app_nil_r, Nat.add_0_r.
  - destruct Hend as [-> _]. simpl. now rewrite app_nil_r, Nat.add_0_r.
  - now rewrite app_nil_r, Nat.add_0_r.
Qed.

End BackoffFacts.

(** Two failures, then a page, with [retries = 3]: the page is returned
    after exactly two waits, of 1 and of 2. *)
Example fetch_url_third_time (j : Json) :
  let run := _fetch_url (Examples.third_time j) (__init__ 3)
                        Examples.some_url [] in
  fst run = Ok j
  /\ List.length (gets (snd run)) = 3%nat
  /\ sleeps (snd run) = [1; 2]
  /\ last (snd run) (EvSleep 0)
     = EvGet Examples.some_url (headers (__init__ 3)) (Responded 200 (Some j)).
Proof. vm_compute. repeat split. Qed.

(** ** The splitting loop *)

Section MonadFacts.

Lemma bind_ok {A B} (m : M A) (k : A -> M B) (w w' : World) (b : B) :
  bind m k w = (Ok b, w') ->
  exists a w1, m w = (Ok a, w1) /\ k a w1 = (Ok b, w').
Proof.
  unfold bind. destruct (m w) as [[a|e] w1]; [|discriminate].
  intros H. now exists a, w1.
Qed.

Lemma lift_ok {A} (r : Result A) (w w' : World) (a : A) :
  lift r w = (Ok a, w') -> r = Ok a /\ w' = w.
Proof. unfold lift. intros [= -> ->]. split; reflexivity. Qed.

Lemma rbind_ok {A B} (r : Result A) (k : A -> Result B) (b : B) :
  Py.rbind r k = Ok b -> exists a, r = Ok a /\ k a = Ok b.
Proof. destruct r as [a|e]; [|discriminate]. intros H. now exists a. Qed.

End MonadFacts.

Section ParseFacts.

Variable to_datetime : Cell -> Result Cell.

(** The parser returns one table for "national" and two otherwise. *)
Lemma parse_shape (response : Json) (type_ : string) (p : Parsed) :
  _parse_fromto_json to_datetime response type_ = Ok p ->
  if String.eqb type_ "national"
  then exists d, p = Table d
  else exists c g, p = Tables c g.
Proof.
  unfold _parse_fromto_json.
  destruct (String.eqb type_ "national"); intros H.
  - repeat (apply rbind_ok in H as (? & _ & H)).
    injection H as <-. eexists; reflexivity.
  - repeat (apply rbind_ok in H as (? & _ & H)).
    injection H as <-. do 2 eexists; reflexivity.
Qed.

Lemma accumulate_ok (acc new : option DataFrame) :
  exists r, accumulate acc new = Ok r
            /\ (acc = None -> r = new)
            /\ (acc <> None -> r <> None).
Proof.
  destruct acc as [a|]; simpl.
  - destruct new as [b|]; simpl; eexists; (split; [reflexivity|]);
      split; congruence.
  - exists new. repeat split; congruence.
Qed.

End ParseFacts.

Section WindowFacts.

Lemma add_0 (dt : datetime) : add dt 0 = dt.
Proof. destruct dt as [u tz]. unfold add; simpl. now rewrite Z.add_0_r. Qed.

Lemma add_add (dt : datetime) (a b : timedelta_t) :
  add (add dt a) b = add dt (a + b).
Proof. unfold add; simpl. now rewrite Z.add_assoc. Qed.

Variables (base endpoint : string) (mr : timedelta_t) (end_ : datetime).

Lemma window_0 (rs : datetime) :
  window base endpoint mr end_ rs 0
  = mkUrl base endpoint rs (request_end_of mr end_ rs).
Proof. unfold window. simpl. now rewrite add_0. Qed.

Lemma window_next (rs : datetime) (i : nat) :
  window base endpoint mr end_ (add rs mr) i
  = window base endpoint mr end_ rs (S i).
Proof.
  unfold window. rewrite add_add.
  replace (mr + Z.of_nat i * mr) with (Z.of_nat (S i) * mr) by lia.
  reflexivity.
Qed.

Lemma blocks_shift (f g : nat -> Url) (cs : list nat) :
  (forall j, f (S j) = g j) ->
  forall i, blocks f (S i) cs = blocks g i cs.
Proof.
  intros Hfg. induction cs as [|c cs IH]; intros i; simpl; [reflexivity|].
  now rewrite Hfg, IH.
Qed.

Lemma blocks_ones (f : nat -> Url) (n : nat) :
  forall i, blocks f i (repeat 1%nat n) = map f (seq i n).
Proof.
  induction n as [|n IH]; intros i; simpl; [reflexivity|].
  now rewrite IH.
Qed.

(** Every request of a run made page after page is a request for one of
    its pages. *)
Lemma blocks_in (f : nat -> Url) (cs : list nat) (u : Url) :
  forall i, In u (blocks f i cs) ->
            exists j, (i <= j < i + List.length cs)%nat /\ u = f j.
Proof.
  induction cs as [|c cs IH]; intros i Hin; simpl in *; [contradiction|].
  apply in_app_or in Hin as [Hin | Hin].
  - apply repeat_spec in Hin. exists i. split; [lia | exact Hin].
  - destruct (IH _ Hin) as (j & Hj & Hu). exists j. split; [lia | exact Hu].
Qed.

(** When every page is requested at least once, every page of the list
    is among the requests. *)
Lemma blocks_covers (f : nat -> Url) (cs : list nat) :
  Forall (fun k => (1 <= k)%nat) cs ->
  forall i j, (j < List.length cs)%nat -> In (f (i + j)%nat) (blocks f i cs).
Proof.
  induction 1 as [|c cs Hc _ IH]; intros i j Hj; simpl in *; [lia|].
  apply in_or_app. destruct j as [|j].
  - left. rewrite Nat.add_0_r. destruct c as [|c]; [lia|]. now left.
  - right. replace (i + S j)%nat with (S i + j)%nat by lia.
    apply IH. lia.
Qed.

(** A page below the count of pages left starts before the end. *)
Lemma page_before_end (stop cur : Z) (i : nat) :
  0 < mr -> (i < pages_left mr stop cur)%nat ->
  cur + Z.of_nat i * mr < stop.
Proof.
  intros Hmr. revert cur.
  induction i as [|i IH]; intros cur Hi.
  - destruct (Z_lt_dec cur stop) as [Hlt|Hge]; [lia|].
    rewrite pages_left_done in Hi by lia. lia.
  - destruct (Z_lt_dec cur stop) as [Hlt|Hge].
    + rewrite pages_left_step in Hi by assumption.
      specialize (IH (cur + mr) ltac:(lia)). lia.
    + rewrite pages_left_done in Hi by lia. lia.
Qed.

Lemma pages_left_ceil (stop cur : Z) :
  0 < mr ->
  Z.of_nat (pages_left mr stop cur)
  = if 0 <? stop - cur then ceil_div (stop - cur) mr else 0.
Proof.
  intros Hmr. destruct (0 <? stop - cur) eqn:Hd.
  - apply Z.ltb_lt in Hd. unfold pages_left, ceil_div.
    rewrite Z2Nat.id; [reflexivity|]. apply Z.div_pos; lia.
  - apply Z.ltb_ge in Hd. rewrite pages_left_done by lia. reflexivity.
Qed.

(** [ceil_div] is the ceiling of the quotient. *)
Lemma ceil_div_spec (a : Z) :
  0 < mr -> mr * (ceil_div a mr - 1) < a <= mr * ceil_div a mr.
Proof.
  intros Hmr. unfold ceil_div.
  pose proof (Z.div_mod (a + mr - 1) mr ltac:(lia)) as Hd.
  pose proof (Z.mod_pos_bound (a + mr - 1) mr Hmr) as Hb.
  lia.
Qed.

End WindowFacts.

Section ZoneFacts.

Lemma same_tzinfo_refl (tz : option tzinfo_t) : same_tzinfo tz tz = true.
Proof.
  destruct tz as [[i x c]|]; [|reflexivity]. simpl. unfold tz_eqb; simpl.
  rewrite N.eqb_refl, Z.eqb_refl. simpl.
  induction c as [|[t o] c IH]; simpl; [reflexivity|].
  now rewrite !Z.eqb_refl, IH.
Qed.

Lemma same_tzinfo_sym (a b : option tzinfo_t) :
  same_tzinfo a b = same_tzinfo b a.
Proof.
  destruct (same_tzinfo a b) eqn:Hab.
  - apply same_tzinfo_eq in Hab. subst. symmetry. apply same_tzinfo_refl.
  - destruct (same_tzinfo b a) eqn:Hba; [|reflexivity].
    apply same_tzinfo_eq in Hba. subst.
    now rewrite same_tzinfo_refl in Hab.
Qed.

Lemma ltb_shift (a b o : Z) : (a - o <? b - o) = (a <? b).
Proof.
  destruct (a <? b) eqn:H; [apply Z.ltb_lt in H | apply Z.ltb_ge in H];
    [apply Z.ltb_lt | apply Z.ltb_ge]; lia.
Qed.

(** Values of one [tzinfo] object compare and subtract by wall clock. *)
Lemma ltb_wall (a b : datetime) :
  same_tzinfo (tzinfo a) (tzinfo b) = true -> Time.ltb a b = (us a <? us b).
Proof. unfold Time.ltb. now intros ->. Qed.

Lemma diff_wall (b a : datetime) :
  same_tzinfo (tzinfo b) (tzinfo a) = true -> diff b a = us b - us a.
Proof. unfold diff. now intros ->. Qed.

(** When the left value has a fixed offset, comparison and subtraction
    are those of the instants, whatever the other [tzinfo] is. *)
Lemma ltb_instant (a b : datetime) :
  fixed_offset (tzinfo a) -> Time.ltb a b = (utc a <? utc b).
Proof.
  intros Hf. unfold Time.ltb.
  destruct (same_tzinfo (tzinfo a) (tzinfo b)) eqn:Hs; [|reflexivity].
  apply same_tzinfo_eq in Hs. unfold utc, offset. rewrite <- Hs.
  rewrite (Hf (us b) (us a)). symmetry. apply ltb_shift.
Qed.

Lemma ltb_instant_r (a b : datetime) :
  fixed_offset (tzinfo b) -> Time.ltb a b = (utc a <? utc b).
Proof.
  intros Hf. unfold Time.ltb.
  destruct (same_tzinfo (tzinfo a) (tzinfo b)) eqn:Hs; [|reflexivity].
  apply same_tzinfo_eq in Hs. unfold utc, offset. rewrite Hs.
  rewrite (Hf (us a) (us b)). symmetry. apply ltb_shift.
Qed.

Lemma diff_instant (b a : datetime) :
  fixed_offset (tzinfo a) -> diff b a = utc b - utc a.
Proof.
  intros Hf. unfold diff.
  destruct (same_tzinfo (tzinfo b) (tzinfo a)) eqn:Hs; [|reflexivity].
  apply same_tzinfo_eq in Hs. unfold utc, offset. rewrite Hs.
  rewrite (Hf (us b) (us a)). lia.
Qed.

(** The clock on which a cursor with the [tzinfo] of [start] is compared
    with [end_] and subtracted from it: the wall clock when the two ends
    share their [tzinfo], the instant when the offset of [start] is
    fixed. *)
Lemma cursor_clock (start end_ : datetime) :
  same_tzinfo (tzinfo start) (tzinfo end_) = true
  \/ fixed_offset (tzinfo start) ->
  exists key : datetime -> Z,
    (forall rs, tzinfo rs = tzinfo start ->
                Time.ltb rs end_ = (key rs <? key end_))
    /\ (forall rs d, tzinfo rs = tzinfo start -> key (add rs d) = key rs + d)
    /\ (forall rs, tzinfo rs = tzinfo start ->
                   diff end_ rs = key end_ - key rs).
Proof.
  intros [Hsame | Hfixed].
  - exists us. repeat split.
    + intros rs Hrs. apply ltb_wall. now rewrite Hrs.
    + intros rs Hrs. apply diff_wall. now rewrite Hrs, same_tzinfo_sym.
  - exists utc. repeat split.
    + intros rs Hrs. apply ltb_instant. now rewrite Hrs.
    + intros rs d Hrs. apply utc_add. now rewrite Hrs.
    + intros rs Hrs. apply diff_instant. now rewrite Hrs.
Qed.

End ZoneFacts.

Section LoopProperties.

Variable server : Server.
Variable to_datetime : Cell -> Result Cell.
Variable self : CarbonIntensityAPI.
Variables (type_ endpoint : string) (mr : timedelta_t) (mr_pos : 0 < mr).
Variable end_ : datetime.

Let loop := between_loop server to_datetime self type_ endpoint mr mr_pos end_.
Let body := between_body server to_datetime self type_ endpoint mr end_.
Let page_url (rs : datetime) : Url :=
  mkUrl (base_url self) endpoint rs (request_end_of mr end_ rs).
Let fuel (rs : datetime) : nat :=
  pages_left mr (limit end_ (tzinfo rs)) (us rs).

Lemma fuel_0 (rs : datetime) : fuel rs = 0%nat -> Time.ltb rs end_ = false.
Proof.
  intros Hn. destruct (Time.ltb rs end_) eqn:Hlt; [|reflexivity].
  apply ltb_limit in Hlt. unfold fuel in Hn.
  rewrite pages_left_step in Hn by assumption. discriminate.
Qed.

Lemma fuel_next (rs : datetime) (n : nat) :
  Time.ltb rs end_ = true -> fuel rs = S n -> fuel (add rs mr) = n.
Proof.
  intros Hlt Hn. apply ltb_limit in Hlt. unfold fuel in *. simpl.
  rewrite pages_left_step in Hn by assumption. now injection Hn.
Qed.

Lemma between_loop_exit rs c g w :
  Time.ltb rs end_ = false -> loop rs c g w = (Ok (c, g), w).
Proof.
  intros Hc. unfold loop. rewrite between_loop_equation_1.
  destruct (inspect (Time.ltb rs end_)) as [[|] Heq];
    [congruence | reflexivity].
Qed.

Lemma between_loop_step rs c g w :
  Time.ltb rs end_ = true ->
  loop rs c g w =
    match body rs c g w with
    | (Ok (c', g'), w1) => loop (add rs mr) c' g' w1
    | (Raise ex, w1) => (Raise ex, w1)
    end.
Proof.
  intros Hc. unfold loop, body. rewrite between_loop_equation_1.
  destruct (inspect (Time.ltb rs end_)) as [[|] Heq]; [|congruence]. simpl.
  destruct (between_body _ _ _ _ _ _ _ _ _ _ _) as [[[c' g']|ex] w1];
    reflexivity.
Qed.

(** The body touches the world only through its one page fetch. *)
Lemma body_world rs c g w :
  snd (body rs c g w) = snd (_fetch_url server self (page_url rs) w).
Proof.
  unfold body, between_body, bind, query_api, lift, ret.
  fold (page_url rs).
  destruct (_fetch_url server self (page_url rs) w) as [[j|ex] w1];
    [|reflexivity]. simpl.
  destruct (_parse_fromto_json to_datetime j type_) as [p|ex]; [|reflexivity].
  destruct (carbon_of type_ p) as [c_|ex]; [|reflexivity].
  destruct (gen_mix_of type_ p) as [g_|ex]; [|reflexivity].
  destruct (accumulate c (Some c_)) as [c'|ex]; [|reflexivity].
  destruct (accumulate g g_) as [g'|ex]; reflexivity.
Qed.

(** What the body returns when it returns: no generation mix for
    "national", both tables otherwise. *)
Lemma body_shape rs c g w c' g' w1 :
  body rs c g w = (Ok (c', g'), w1) ->
  if String.eqb type_ "national"
  then g = None -> g' = None
  else c' <> None /\ g' <> None.
Proof.
  unfold body, between_body. intros H.
  apply bind_ok in H as (j & w2 & _ & H).
  apply bind_ok in H as (p & w3 & Hp & H). apply lift_ok in Hp as [Hp _].
  apply bind_ok in H as (c_ & w4 & Hc & H). apply lift_ok in Hc as [Hc _].
  apply bind_ok in H as (g_ & w5 & Hg & H). apply lift_ok in Hg as [Hg _].
  apply bind_ok in H as (c2 & w6 & Hc2 & H). apply lift_ok in Hc2 as [Hc2 _].
  apply bind_ok in H as (g2 & w7 & Hg2 & H). apply lift_ok in Hg2 as [Hg2 _].
  injection H as <- <- _.
  apply parse_shape in Hp. unfold carbon_of, gen_mix_of in *.
  destruct (String.eqb type_ "national").
  - destruct Hp as [d ->]. injection Hg as <-.
    intros ->. simpl in Hg2. now injection Hg2 as <-.
  - destruct Hp as (cd & gd & ->). injection Hc as <-. injection Hg as <-.
    split.
    + destruct (accumulate_ok c (Some cd)) as (r & Hr & Hnone & Hsome).
      rewrite Hr in Hc2. injection Hc2 as <-.
      destruct c; [apply Hsome | rewrite Hnone]; congruence.
    + destruct (accumulate_ok g (Some gd)) as (r & Hr & Hnone & Hsome).
      rewrite Hr in Hg2. injection Hg2 as <-.
      destruct g; [apply Hsome | rewrite Hnone]; congruence.
Qed.

(** The body is its page fetch followed by pure code: what the fetch
    raises the body raises, and the body returns only after a page that
    was fetched. *)
Lemma body_run rs c g w :
  exists os en,
    snd (body rs c g w)
    = w ++ backoff (page_url rs) (headers self) 1 os
        ++ ending_events (page_url rs) (headers self) en
    /\ Forall (fun o => http_failure o = true) os
    /\ (List.length os + List.length (ending_events (page_url rs)
                                                    (headers self) en)
        <= Z.to_nat (retries self + 1))%nat
    /\ (forall x, fetch_result en = Raise x -> fst (body rs c g w) = Raise x)
    /\ (forall r, fst (body rs c g w) = Ok r ->
                  exists st j, en = Fetched st (Some j))
    /\ served server w (backoff (page_url rs) (headers self) 1 os
                        ++ ending_events (page_url rs) (headers self) en)
    /\ (0 <= retries self ->
        (1 <= List.length os
              + List.length (ending_events (page_url rs) (headers self) en))
        %nat).
Proof.
  destruct (fetch_url_run server self (page_url rs) w)
    as (os & en & Hos & Hend & Hserved & Hrun).
  exists os, en.
  unfold body, between_body, bind, query_api, lift, ret.
  fold (page_url rs). rewrite Hrun.
  split; [|split; [exact Hos | split]].
  - destruct (fetch_result en) as [j|x]; [|reflexivity]. simpl.
    destruct (_parse_fromto_json to_datetime j type_) as [p|x]; [|reflexivity].
    destruct (carbon_of type_ p) as [c_|x]; [|reflexivity].
    destruct (gen_mix_of type_ p) as [g_|x]; [|reflexivity].
    destruct (accumulate c (Some c_)) as [c'|x]; [|reflexivity].
    destruct (accumulate g g_) as [g'|x]; reflexivity.
  - destruct en; simpl in *; lia.
  - split; [|split; [|split]].
    + intros x Hx. rewrite Hx. reflexivity.
    + intros r. destruct en as [|st [j|]|te]; simpl; try discriminate.
      intros _. now exists st, j.
    + exact Hserved.
    + intros Hr. destruct en; simpl in *; lia.
Qed.

(** The requests of the loop come page after page: some requests for
    the window at the cursor, then some for the next window, and so on.
    Every window requested has its cursor before the end; a window gets
    at most [retries + 1] requests, and at least one when [retries] is
    not negative; the loop returns when the cursor is no longer before
    the end, and raises only from a window it requested. *)
Lemma between_loop_trace :
  forall (n : nat) rs c g w,
    fuel rs = n ->
    exists ext counts,
      snd (loop rs c g w) = w ++ ext
      /\ served server w ext
      /\ requested ext
         = blocks (window (base_url self) endpoint mr end_ rs) 0 counts
      /\ (forall i, (i < List.length counts)%nat ->
                    Time.ltb (add rs (Z.of_nat i * mr)) end_ = true)
      /\ Forall (fun k => (k <= Z.to_nat (retries self + 1))%nat) counts
      /\ (0 <= retries self -> Forall (fun k => (1 <= k)%nat) counts)
      /\ (forall r, fst (loop rs c g w) = Ok r ->
                    Time.ltb (add rs (Z.of_nat (List.length counts) * mr))
                             end_ = false)
      /\ (forall x, fst (loop rs c g w) = Raise x -> counts <> []).
Proof.
  assert (Hstop : forall rs c g w,
             Time.ltb rs end_ = false ->
             exists ext counts,
               snd (loop rs c g w) = w ++ ext
               /\ served server w ext
               /\ requested ext
                  = blocks (window (base_url self) endpoint mr end_ rs) 0
                           counts
               /\ (forall i, (i < List.length counts)%nat ->
                             Time.ltb (add rs (Z.of_nat i * mr)) end_ = true)
               /\ Forall (fun k => (k <= Z.to_nat (retries self + 1))%nat)
                         counts
               /\ (0 <= retries self -> Forall (fun k => (1 <= k)%nat) counts)
               /\ (forall r, fst (loop rs c g w) = Ok r ->
                             Time.ltb
                               (add rs (Z.of_nat (List.length counts) * mr))
                               end_ = false)
               /\ (forall x, fst (loop rs c g w) = Raise x -> counts <> [])).
  { intros rs c g w Hge. exists [], []. unfold loop.
    rewrite between_loop_exit by exact Hge. rewrite app_nil_r. simpl.
    repeat split; try constructor.
    - intros i Hi. lia.
    - intros _ _. now rewrite add_0.
    - intros x [=]. }
  induction n as [|n IH]; intros rs c g w Hn.
  - apply Hstop. now apply fuel_0.
  - destruct (Time.ltb rs end_) eqn:Hlt; [|now apply Hstop].
    unfold loop. rewrite between_loop_step by assumption. fold body loop.
    destruct (body_run rs c g w)
      as (os & en & Hsnd & _ & Hlen & _ & _ & Hserved1 & Hone).
    set (ext1 := backoff (page_url rs) (headers self) 1 os
                 ++ ending_events (page_url rs) (headers self) en) in *.
    assert (Hreq1 : requested ext1
                    = repeat (page_url rs) (List.length (requested ext1))).
    { unfold ext1. rewrite requested_app, requested_backoff.
      destruct en; simpl; rewrite ?app_nil_r, ?repeat_length;
        try reflexivity;
        rewrite length_app, repeat_length, Nat.add_comm; simpl;
        rewrite <- repeat_cons; reflexivity. }
    assert (Hk : List.length (requested ext1)
                 = (List.length os
                    + List.length (ending_events (page_url rs)
                                                 (headers self) en))%nat).
    { unfold ext1.
      rewrite requested_app, length_app, requested_backoff, repeat_length.
      destruct en; reflexivity. }
    assert (Hle : (List.length (requested ext1)
                   <= Z.to_nat (retries self + 1))%nat)
      by (rewrite Hk; exact Hlen).
    assert (Hge : 0 <= retries self ->
                  (1 <= List.length (requested ext1))%nat)
      by (intros Hr; rewrite Hk; now apply Hone).
    clearbody ext1. clear Hk Hlen Hone.
    destruct (body rs c g w) as [[[c' g']|x] w1]; simpl in Hsnd; subst w1.
    + destruct (IH (add rs mr) c' g' (w ++ ext1) (fuel_next rs n Hlt Hn))
        as (ext2 & counts & Hsnd2 & Hserved2 & Hreq2 & Hin & Hmax & Hmin
            & Hok & Hraise).
      exists (ext1 ++ ext2), (List.length (requested ext1) :: counts).
      rewrite Hsnd2, app_assoc. split; [reflexivity|].
      split; [apply served_app; split; assumption|].
      split.
      { rewrite requested_app, Hreq2. simpl.
        rewrite window_0. fold (page_url rs). rewrite <- Hreq1.
        f_equal. symmetry. apply blocks_shift. intros j.
        symmetry. apply window_next. }
      split.
      { intros [|i] Hi.
        - simpl. now rewrite add_0.
        - specialize (Hin i ltac:(simpl in Hi; lia)).
          rewrite add_add in Hin.
          replace (Z.of_nat (S i) * mr) with (mr + Z.of_nat i * mr) by lia.
          exact Hin. }
      split; [constructor; assumption|].
      split; [intros Hr; constructor; [now apply Hge | now apply Hmin]|].
      split.
      { intros r Hr. specialize (Hok r Hr). rewrite add_add in Hok.
        cbn [List.length].
        replace (Z.of_nat (S (List.length counts)) * mr)
          with (mr + Z.of_nat (List.length counts) * mr) by lia.
        exact Hok. }
      intros x _. discriminate.
    + exists ext1, [List.length (requested ext1)]. simpl.
      split; [reflexivity|]. split; [exact Hserved1|].
      split; [rewrite window_0, app_nil_r; exact Hreq1|].
      split.
      { intros [|i] Hi; [|lia]. simpl. now rewrite add_0. }
      split; [repeat constructor; exact Hle|].
      split; [intros Hr; repeat constructor; now apply Hge|].
      split; [intros r [=] | intros y _; discriminate].
Qed.

(** Loop invariant on the shape of the result. *)
Lemma between_loop_shape :
  forall (n : nat) rs c g w c' g' w',
    fuel rs = n ->
    loop rs c g w = (Ok (c', g'), w') ->
    if String.eqb type_ "national"
    then g = None -> g' = None
    else (c <> None /\ g <> None) \/ Time.ltb rs end_ = true ->
         c' <> None /\ g' <> None.
Proof.
  assert (Hstop : forall rs c g w c' g' w',
             Time.ltb rs end_ = false ->
             loop rs c g w = (Ok (c', g'), w') ->
             if String.eqb type_ "national"
             then g = None -> g' = None
             else (c <> None /\ g <> None) \/ Time.ltb rs end_ = true ->
                  c' <> None /\ g' <> None).
  { intros rs c g w c' g' w' Hge Hrun. unfold loop in Hrun.
    rewrite between_loop_exit in Hrun by assumption.
    injection Hrun as <- <- _.
    destruct (String.eqb type_ "national"); [tauto|].
    intros [H|H]; [exact H | congruence]. }
  induction n as [|n IH]; intros rs c g w c' g' w' Hn Hrun.
  - apply (Hstop rs c g w c' g' w'); [now apply fuel_0 | exact Hrun].
  - destruct (Bool.bool_dec (Time.ltb rs end_) true) as [Hlt|Hlt];
      [|apply not_true_is_false in Hlt;
        now apply (Hstop rs c g w c' g' w')].
    unfold loop in Hrun. rewrite between_loop_step in Hrun by assumption.
    fold body loop in Hrun.
    destruct (body rs c g w) as [[[c1 g1]|ex] w1] eqn:Hbody;
      [|discriminate].
    apply body_shape in Hbody.
    specialize (IH (add rs mr) c1 g1 w1 c' g' w' (fuel_next rs n Hlt Hn) Hrun).
    destruct (String.eqb type_ "national").
    + intros Hg. apply IH, Hbody, Hg.
    + intros _. apply IH. left. exact Hbody.
Qed.

End LoopProperties.

(** The loop against a server that always answers with the same page,
    one that passes the status check, decodes and parses. *)
Section ReliableServer.

Variable server : Server.
Variable to_datetime : Cell -> Result Cell.
Variable self : CarbonIntensityAPI.
Variables (type_ endpoint : string) (mr : timedelta_t) (mr_pos : 0 < mr).
Variable end_ : datetime.
Variables (st : Z) (j : Json) (p : Parsed).

(** [key] places the cursor and the end on one line: the wall clock for
    values of one [tzinfo] object, the instant for a cursor with a fixed
    offset. *)
Variable key : datetime -> Z.
Variable tz : option tzinfo_t.
Hypothesis key_ltb :
  forall rs, tzinfo rs = tz -> Time.ltb rs end_ = (key rs <? key end_).
Hypothesis key_add :
  forall rs d, tzinfo rs = tz -> key (add rs d) = key rs + d.

Hypothesis retries_nonneg : 0 <= retries self.
Hypothesis fixed_answer : forall w u, server w u = Responded st (Some j).
Hypothesis good_status : failure_status st = false.
Hypothesis good_page : _parse_fromto_json to_datetime j type_ = Ok p.

Lemma fetch_url_reliable url w :
  _fetch_url server self url w
  = (Ok j, w ++ [EvGet url (headers self) (Responded st (Some j))]).
Proof.
  unfold _fetch_url.
  rewrite fetch_loop_step by (simpl; apply Z.ltb_lt; lia).
  rewrite attempt_cases, fixed_answer, good_status.
  rewrite fetch_loop_exit by reflexivity. reflexivity.
Qed.

Lemma body_reliable rs c g w :
  exists c' g',
    between_body server to_datetime self type_ endpoint mr end_ rs c g w
    = (Ok (c', g'),
       w ++ [EvGet (mkUrl (base_url self) endpoint rs
                          (request_end_of mr end_ rs))
                   (headers self) (Responded st (Some j))]).
Proof.
  unfold between_body, bind, query_api, lift, ret.
  rewrite fetch_url_reliable, good_page.
  pose proof (parse_shape _ _ _ _ good_page) as Hshape.
  unfold carbon_of, gen_mix_of.
  destruct (String.eqb type_ "national").
  - destruct Hshape as [d ->].
    destruct (accumulate_ok c (Some d)) as (c' & -> & _).
    destruct (accumulate_ok g None) as (g' & -> & _).
    now exists c', g'.
  - destruct Hshape as (cd & gd & ->).
    destruct (accumulate_ok c (Some cd)) as (c' & -> & _).
    destruct (accumulate_ok g (Some gd)) as (g' & -> & _).
    now exists c', g'.
Qed.

Lemma between_loop_reliable :
  forall (n : nat) rs c g w,
    tzinfo rs = tz ->
    pages_left mr (key end_) (key rs) = n ->
    exists res ext,
      between_loop server to_datetime self type_ endpoint mr mr_pos end_
                   rs c g w = (Ok res, w ++ ext)
      /\ served server w ext
      /\ requested ext
         = map (window (base_url self) endpoint mr end_ rs) (seq 0 n)
      /\ List.length (gets ext) = n.
Proof.
  induction n as [|n IH]; intros rs c g w Htz Hn.
  - exists (c, g), []. rewrite app_nil_r.
    rewrite between_loop_exit; [repeat split|].
    rewrite key_ltb by exact Htz. apply Z.ltb_ge.
    destruct (Z_lt_dec (key rs) (key end_)) as [Hlt|]; [|lia].
    rewrite pages_left_step in Hn by assumption. discriminate.
  - assert (Hlt : key rs < key end_).
    { destruct (Z_lt_dec (key rs) (key end_)) as [Hlt|]; [assumption|].
      rewrite pages_left_done in Hn by lia. discriminate. }
    rewrite between_loop_step
      by (rewrite key_ltb by exact Htz; apply Z.ltb_lt; exact Hlt).
    destruct (body_reliable rs c g w) as (c' & g' & ->).
    rewrite pages_left_step in Hn by assumption.
    destruct (IH (add rs mr) c' g'
                 (w ++ [EvGet (mkUrl (base_url self) endpoint rs
                                     (request_end_of mr end_ rs))
                              (headers self) (Responded st (Some j))]))
      as (res & ext & Hrun & Hserved & Hreq & Hlen).
    { exact Htz. }
    { rewrite key_add by exact Htz. now injection Hn. }
    exists res, (EvGet (mkUrl (base_url self) endpoint rs
                              (request_end_of mr end_ rs))
                       (headers self) (Responded st (Some j)) :: ext).
    rewrite Hrun, <- app_assoc. split; [reflexivity|].
    split; [simpl; split; [symmetry; apply fixed_answer | exact Hserved]|].
    split; [|simpl; now rewrite Hlen].
    simpl. rewrite window_0, Hreq. f_equal.
    rewrite <- seq_shift, map_map. apply map_ext. intros i.
    apply window_next.
Qed.

End ReliableServer.

(** ** Claims about [between] *)

Section BetweenClaims.

Variable server : Server.
Variable to_datetime : Cell -> Result Cell.

Lemma valid_type_cases (type_ : string) :
  valid_type type_ = true ->
  Py.lower type_ = "national" \/ Py.lower type_ = "regional".
Proof.
  unfold valid_type, Py.str_in. simpl. rewrite orb_false_r.
  intros H. apply orb_prop in H as [H | H]; apply String.eqb_eq in H; tauto.
Qed.

(** With valid arguments, [between] is its loop started at the rounded
    start with nothing accumulated. *)
Lemma between_valid (retries_ : Z) (start end_ : datetime) (type_ : string) :
  tzinfo start <> None -> tzinfo end_ <> None -> valid_type type_ = true ->
  exists pos : 0 < days 14,
    between server to_datetime (__init__ retries_) start end_ type_
    = between_loop server to_datetime (__init__ retries_)
                   (Py.lower type_) (endpoint_of (Py.lower type_))
                   (days 14) pos (_nearest_hh end_) (_nearest_hh start)
                   None None.
Proof.
  intros Hs He Hv. unfold between.
  destruct (tzinfo start); [|contradiction].
  destruct (tzinfo end_); [|contradiction].
  cbn [is_none negb andb orb].
  pose proof Hv as Hin. unfold valid_type in Hin. rewrite Hin.
  cbn [negb].
  apply valid_type_cases in Hv.
  destruct Hv as [-> | ->]; simpl; eexists; reflexivity.
Qed.

(** Invalid arguments are refused before the loop is reached. *)
Lemma between_rejects (self : CarbonIntensityAPI)
    (start end_ : datetime) (type_ : string) (w : World) :
  tzinfo start = None \/ tzinfo end_ = None \/ valid_type type_ = false ->
  exists e,
    between server to_datetime self start end_ type_ w = (Raise e, w)
    /\ (e = Exception msg_datetimes \/ e = Exception msg_type).
Proof.
  intros H. unfold between.
  destruct (tzinfo start) as [zs|] eqn:Hs.
  2:{ exists (Exception msg_datetimes). simpl. split; [reflexivity | tauto]. }
  destruct (tzinfo end_) as [ze|] eqn:He.
  2:{ exists (Exception msg_datetimes). simpl. split; [reflexivity | tauto]. }
  destruct H as [H | [H | H]]; try discriminate.
  cbn [is_none negb andb orb].
  unfold valid_type in H. rewrite H. cbn [negb].
  exists (Exception msg_type). split; [reflexivity | tauto].
Qed.

(** C7.  When [start] or [end] has no time zone, or the lowered mode is
    neither "national" nor "regional", [between] raises one of its two
    input errors and the world is as it was: no request was made. *)
Theorem between_invalid_input (self : CarbonIntensityAPI)
    (start end_ : datetime) (type_ : string) (w : World) :
  tzinfo start = None \/ tzinfo end_ = None \/ valid_type type_ = false ->
  exists e,
    between server to_datetime self start end_ type_ w = (Raise e, w)
    /\ InvalidInputError e.
Proof.
  intros H. destruct (between_rejects self start end_ type_ w H)
    as (e & Hrun & He).
  exists e. split; assumption.
Qed.

(** C8.  With time zones on both ends and a valid mode, a rounded start
    that is not before the rounded end gives [(None, None)] and leaves
    the world as it was: the loop body never runs. *)
Theorem between_empty_range (retries_ : Z) (start end_ : datetime)
    (type_ : string) (w : World) :
  tzinfo start <> None -> tzinfo end_ <> None -> valid_type type_ = true ->
  Time.ltb (_nearest_hh start) (_nearest_hh end_) = false ->
  between server to_datetime (__init__ retries_) start end_ type_ w
  = (Ok (None, None), w).
Proof.
  intros Hs He Hv Hge.
  destruct (between_valid retries_ start end_ type_ Hs He Hv) as [pos ->].
  now apply between_loop_exit.
Qed.

End BetweenClaims.

Section RangeClaims.

Variable server : Server.
Variable to_datetime : Cell -> Result Cell.
Variable retries_ : Z.
Variables (start end_ : datetime) (type_ : string).
Variable w : World.

Let self := __init__ retries_.
Let s := _nearest_hh start.
Let e := _nearest_hh end_.
Let page (i : nat) : Url :=
  window (base_url self) (endpoint_of (Py.lower type_)) (days 14) e s i.

(** C1, as amended.  Take [start] and [end] that share one [tzinfo]
    object, or a [start] whose [tzinfo] has a fixed offset.  Against a
    server that always answers with the same valid page, [between]
    succeeds and makes exactly [ceil((end - start) / maxRange)] requests
    when the rounded end is after the rounded start, and none otherwise;
    the requests are for the windows 0, 1, 2, ... in order. *)
Theorem between_request_count (st : Z) (j : Json) (p : Parsed) :
  0 <= retries_ ->
  tzinfo start <> None -> tzinfo end_ <> None -> valid_type type_ = true ->
  same_tzinfo (tzinfo start) (tzinfo end_) = true
  \/ fixed_offset (tzinfo start) ->
  (forall w' u, server w' u = Responded st (Some j)) ->
  failure_status st = false ->
  _parse_fromto_json to_datetime j (Py.lower type_) = Ok p ->
  exists res ext,
    between server to_datetime self start end_ type_ w = (Ok res, w ++ ext)
    /\ served server w ext
    /\ requested ext = map page (seq 0 (List.length (gets ext)))
    /\ Z.of_nat (List.length (gets ext))
       = if 0 <? diff e s then ceil_div (diff e s) (days 14) else 0.
Proof.
  intros Hr Hs He Hv Hzone Hsrv Hst Hparse. unfold self, s, e, page.
  destruct (between_valid server to_datetime retries_ start end_ type_
                          Hs He Hv) as [pos ->].
  pose proof (nearest_hh_tzinfo start) as Htzs.
  pose proof (nearest_hh_tzinfo end_) as Htze.
  destruct Hzone as [Hsame | Hfixed].
  - destruct (between_loop_reliable server to_datetime (__init__ retries_)
                (Py.lower type_) (endpoint_of (Py.lower type_)) (days 14) pos
                (_nearest_hh end_) st j p us (tzinfo start)
                (fun rs Hrs =>
                   ltb_wall rs (_nearest_hh end_)
                            ltac:(now rewrite Hrs, Htze))
                (fun rs d _ => us_add rs d)
                Hr Hsrv Hst Hparse
                (pages_left (days 14) (us (_nearest_hh end_))
                            (us (_nearest_hh start)))
                (_nearest_hh start) None None w Htzs eq_refl)
      as (res & ext & Hrun & Hserved & Hreq & Hlen).
    exists res, ext. split; [exact Hrun|]. split; [exact Hserved|].
    rewrite Hlen. split; [exact Hreq|].
    rewrite diff_wall
      by (now rewrite Htzs, Htze, same_tzinfo_sym).
    apply pages_left_ceil. exact pos.
  - destruct (between_loop_reliable server to_datetime (__init__ retries_)
                (Py.lower type_) (endpoint_of (Py.lower type_)) (days 14) pos
                (_nearest_hh end_) st j p utc (tzinfo start)
                (fun rs Hrs =>
                   ltb_instant rs (_nearest_hh end_)
                               ltac:(now rewrite Hrs))
                (fun rs d Hrs => utc_add rs d ltac:(now rewrite Hrs))
                Hr Hsrv Hst Hparse
                (pages_left (days 14) (utc (_nearest_hh end_))
                            (utc (_nearest_hh start)))
                (_nearest_hh start) None None w Htzs eq_refl)
      as (res & ext & Hrun & Hserved & Hreq & Hlen).
    exists res, ext. split; [exact Hrun|]. split; [exact Hserved|].
    rewrite Hlen. split; [exact Hreq|].
    rewrite diff_instant by (now rewrite Htzs).
    apply pages_left_ceil. exact pos.
Qed.

(** C4.  Whatever the server does, the requests of [between] come page
    after page: the requests for window 0, then those for window 1, and
    so on, where window [i] starts [i] maximum windows after the rounded
    start and ends at [min(end, cursor + maxRange - 30min)].  With
    [retries >= 0] every window of the list is requested, at least once,
    so the [i]-th window requested is window [i]: the cursor advances by
    one maximum window, never more.  The windows of the list are those
    the loop test lets in: each has its cursor before the end, a call
    that returns stops at the first cursor that is not, and a call that
    raises does so from a window it requested. *)
Theorem between_windows :
  tzinfo start <> None -> tzinfo end_ <> None -> valid_type type_ = true ->
  exists ext counts,
    snd (between server to_datetime self start end_ type_ w) = w ++ ext
    /\ served server w ext
    /\ requested ext = blocks page 0 counts
    /\ (forall i, url_from (page i) = add s (Z.of_nat i * days 14)
                  /\ url_to (page i)
                     = Time.min e (sub (add (url_from (page i)) (days 14))
                                       (minutes 30)))
    /\ (0 <= retries_ ->
        Forall (fun k => (1 <= k)%nat) counts
        /\ forall i, (i < List.length counts)%nat ->
                     In (page i) (requested ext))
    /\ (forall i, (i < List.length counts)%nat ->
                  Time.ltb (url_from (page i)) e = true)
    /\ (forall r,
           fst (between server to_datetime self start end_ type_ w) = Ok r ->
           Time.ltb (add s (Z.of_nat (List.length counts) * days 14)) e
           = false)
    /\ (forall x,
           fst (between server to_datetime self start end_ type_ w) = Raise x ->
           counts <> []).
Proof.
  intros Hs He Hv. unfold self, s, e, page.
  destruct (between_valid server to_datetime retries_ start end_ type_
                          Hs He Hv) as [pos ->].
  destruct (between_loop_trace server to_datetime (__init__ retries_)
              (Py.lower type_) (endpoint_of (Py.lower type_)) (days 14) pos
              (_nearest_hh end_) _ (_nearest_hh start) None None w eq_refl)
    as (ext & counts & Hsnd & Hserved & Hreq & Hin & _ & Hmin & Hok & Hraise).
  exists ext, counts.
  split; [exact Hsnd|]. split; [exact Hserved|]. split; [exact Hreq|].
  split; [intros i; split; reflexivity|].
  split; [|repeat split; assumption].
  intros Hr. split; [now apply Hmin|].
  intros i Hi. rewrite Hreq.
  apply (blocks_covers _ counts (Hmin Hr) 0%nat i Hi).
Qed.

(** C9, as amended.  Take a [start] whose [tzinfo] has a fixed offset.
    Every request of [between] is made with the cursor before the rounded
    end, and the time from the start of its window to its end is at least
    0 and at most [maxRange - 30min], hence less than [maxRange]. *)
Theorem between_window_length :
  tzinfo start <> None -> tzinfo end_ <> None -> valid_type type_ = true ->
  fixed_offset (tzinfo start) ->
  exists ext,
    snd (between server to_datetime self start end_ type_ w) = w ++ ext
    /\ forall u, In u (requested ext) ->
         Time.ltb (url_from u) e = true
         /\ 0 <= utc (url_to u) - utc (url_from u) <= days 14 - minutes 30
         /\ utc (url_to u) - utc (url_from u) < days 14.
Proof.
  intros Hs He Hv Hfixed. unfold self, s, e, page.
  destruct (between_valid server to_datetime retries_ start end_ type_
                          Hs He Hv) as [pos ->].
  destruct (between_loop_trace server to_datetime (__init__ retries_)
              (Py.lower type_) (endpoint_of (Py.lower type_)) (days 14) pos
              (_nearest_hh end_) _ (_nearest_hh start) None None w eq_refl)
    as (ext & counts & Hsnd & _ & Hreq & Hin & _).
  exists ext. split; [exact Hsnd|].
  intros u Hu. rewrite Hreq in Hu.
  apply blocks_in in Hu as (i & Hi & ->).
  specialize (Hin i ltac:(lia)).
  unfold window. cbn [url_from url_to].
  set (cursor := add (_nearest_hh start) (Z.of_nat i * days 14)) in *.
  assert (Hfc : fixed_offset (tzinfo cursor))
    by (unfold cursor; simpl; now rewrite nearest_hh_tzinfo).
  split; [exact Hin|].
  rewrite (ltb_instant cursor _ Hfc) in Hin. apply Z.ltb_lt in Hin.
  unfold Time.min.
  rewrite (ltb_instant (sub (add cursor (days 14)) (minutes 30)) _ Hfc).
  rewrite utc_sub, utc_add by exact Hfc.
  destruct (utc cursor + days 14 - minutes 30 <? utc (_nearest_hh end_))
    eqn:Hmin;
    [apply Z.ltb_lt in Hmin | apply Z.ltb_ge in Hmin].
  - rewrite utc_sub, utc_add by exact Hfc.
    unfold days, minutes, timedelta in *. lia.
  - unfold days, minutes, timedelta in *. lia.
Qed.

(** C10.  A call that returns gives a pair.  For "national" its second
    component is [None]; for "regional" with the rounded start before
    the rounded end, both components are tables. *)
Theorem between_result_shape (carbon gen_mix : option DataFrame)
    (w' : World) :
  between server to_datetime self start end_ type_ w
  = (Ok (carbon, gen_mix), w') ->
  (Py.lower type_ = "national" -> gen_mix = None)
  /\ (Py.lower type_ = "regional" -> Time.ltb s e = true ->
      carbon <> None /\ gen_mix <> None).
Proof.
  intros Hrun. unfold self, s, e in *.
  assert (Hinv : ~ (tzinfo start = None \/ tzinfo end_ = None
                    \/ valid_type type_ = false)).
  { intros Hbad.
    destruct (between_rejects server to_datetime (__init__ retries_)
                start end_ type_ w Hbad) as (ex & Hex & _).
    congruence. }
  assert (Hvalid : tzinfo start <> None /\ tzinfo end_ <> None
                   /\ valid_type type_ = true).
  { repeat split; try (intros Hn; apply Hinv; tauto).
    destruct (valid_type type_); [reflexivity | exfalso; apply Hinv; tauto]. }
  destruct Hvalid as (Hs & He & Hv).
  destruct (between_valid server to_datetime retries_ start end_ type_
                          Hs He Hv) as [pos Heq].
  rewrite Heq in Hrun.
  pose proof (between_loop_shape server to_datetime (__init__ retries_)
                (Py.lower type_) (endpoint_of (Py.lower type_)) (days 14)
                pos (_nearest_hh end_) _ (_nearest_hh start) None None w
                carbon gen_mix w' eq_refl Hrun) as Hshape.
  split.
  - intros Ht. rewrite Ht in Hshape. simpl in Hshape. now apply Hshape.
  - intros Ht Hlt. rewrite Ht in Hshape. simpl in Hshape.
    apply Hshape. right. exact Hlt.
Qed.

End RangeClaims.

(** ** The claims at concrete inputs *)

Section Witnesses.

Import Examples.

Lemma between_request_count_witness :
  0 <= 3
  /\ tzinfo range_start <> None /\ tzinfo range_end <> None
  /\ valid_type "National" = true
  /\ (same_tzinfo (tzinfo range_start) (tzinfo range_end) = true
      \/ fixed_offset (tzinfo range_start))
  /\ _parse_fromto_json keep_cell national_page (Py.lower "National")
     = Ok national_table
  /\ exists res ext,
       between (fixed_page national_page) keep_cell (__init__ 3)
               range_start range_end "National" [] = (Ok res, [] ++ ext)
       /\ Z.of_nat (List.length (gets ext)) = 2.
Proof.
  assert (H0 : 0 <= 3) by lia.
  assert (Hs : tzinfo range_start <> None) by discriminate.
  assert (He : tzinfo range_end <> None) by discriminate.
  assert (Hv : valid_type "National" = true) by reflexivity.
  assert (Hz : same_tzinfo (tzinfo range_start) (tzinfo range_end) = true
               \/ fixed_offset (tzinfo range_start))
    by (left; reflexivity).
  assert (Hp : _parse_fromto_json keep_cell national_page
                 (Py.lower "National") = Ok national_table)
    by (vm_compute; reflexivity).
  repeat (split; [assumption|]).
  destruct (between_request_count (fixed_page national_page) keep_cell 3
              range_start range_end "National" [] 200 national_page
              national_table H0 Hs He Hv Hz (fun _ _ => eq_refl) eq_refl Hp)
    as (res & ext & Hrun & _ & _ & Hcount).
  exists res, ext. split; [exact Hrun|].
  rewrite Hcount. vm_compute. reflexivity.
Defined.


Lemma between_windows_witness :
  tzinfo range_start <> None /\ tzinfo range_end <> None
  /\ valid_type "regional" = true
  /\ exists ext counts,
       snd (between drops_second keep_cell (__init__ 3)
                    range_start range_end "regional" []) = [] ++ ext
       /\ requested ext
          = blocks (window (base_url (__init__ 3))
                           (endpoint_of (Py.lower "regional")) (days 14)
                           (_nearest_hh range_end) (_nearest_hh range_start))
                   0 counts
       /\ Forall (fun k => (1 <= k)%nat) counts
       /\ counts <> [].
Proof.
  assert (Hs : tzinfo range_start <> None) by discriminate.
  assert (He : tzinfo range_end <> None) by discriminate.
  assert (Hv : valid_type "regional" = true) by reflexivity.
  repeat (split; [assumption|]).
  destruct (between_windows drops_second keep_cell 3
              range_start range_end "regional" [] Hs He Hv)
    as (ext & counts & Hsnd & _ & Hreq & _ & Hmin & _ & _ & Hraise).
  exists ext, counts. split; [exact Hsnd|]. split; [exact Hreq|].
  split; [apply Hmin; lia|].
  apply (Hraise (Transport ConnectionError)). vm_compute. reflexivity.
Defined.

Lemma between_invalid_input_witness :
  (tzinfo (at_time 12 0 0 0 None) = None
   \/ tzinfo range_end = None \/ valid_type "national" = false)
  /\ exists e,
       between always_500 keep_cell (__init__ 3)
               (at_time 12 0 0 0 None) range_end "national" []
       = (Raise e, [])
       /\ InvalidInputError e.
Proof.
  assert (H : tzinfo (at_time 12 0 0 0 None) = None
              \/ tzinfo range_end = None \/ valid_type "national" = false)
    by (left; reflexivity).
  split; [exact H|].
  exact (between_invalid_input always_500 keep_cell (__init__ 3)
           (at_time 12 0 0 0 None) range_end "national" [] H).
Defined.

Lemma between_empty_range_witness :
  tzinfo range_end <> None /\ tzinfo range_start <> None
  /\ valid_type "NATIONAL" = true
  /\ Time.ltb (_nearest_hh range_end) (_nearest_hh range_start) = false
  /\ between always_500 keep_cell (__init__ 3)
             range_end range_start "NATIONAL" []
     = (Ok (None, None), []).
Proof.
  assert (Hs : tzinfo range_end <> None) by discriminate.
  assert (He : tzinfo range_start <> None) by discriminate.
  assert (Hv : valid_type "NATIONAL" = true) by reflexivity.
  assert (Hge : Time.ltb (_nearest_hh range_end) (_nearest_hh range_start)
                = false) by (vm_compute; reflexivity).
  repeat (split; [assumption|]).
  exact (between_empty_range always_500 keep_cell 3
           range_end range_start "NATIONAL" [] Hs He Hv Hge).
Defined.

Lemma between_window_length_witness :
  tzinfo range_start <> None /\ tzinfo range_end <> None
  /\ valid_type "national" = true
  /\ fixed_offset (tzinfo range_start)
  /\ exists ext,
       snd (between always_500 keep_cell (__init__ 3)
                    range_start range_end "national" []) = [] ++ ext
       /\ forall u, In u (requested ext) ->
            0 <= utc (url_to u) - utc (url_from u) <= days 14 - minutes 30.
Proof.
  assert (Hs : tzinfo range_start <> None) by discriminate.
  assert (He : tzinfo range_end <> None) by discriminate.
  assert (Hv : valid_type "national" = true) by reflexivity.
  assert (Hf : fixed_offset (tzinfo range_start))
    by (intros x y; reflexivity).
  repeat (split; [assumption|]).
  destruct (between_window_length always_500 keep_cell 3
              range_start range_end "national" [] Hs He Hv Hf)
    as (ext & Hsnd & Hall).
  exists ext. split; [exact Hsnd|].
  intros u Hin. exact (proj1 (proj2 (Hall u Hin))).
Defined.

(** C1 as it was stated fails when the two ends are in different zones
    and the zone of [start] changes its offset inside the range.  From
    00:00 on 16 March on the clock of [london] to 23:30 UTC on 29 March
    there are 13 days 23 h 30 min, so one request would do; the code
    makes two, because the second cursor, 00:00 on 30 March, London time,
    is 23:00 UTC on 29 March. *)
Lemma between_request_count_mixed_zones :
  tzinfo march_start <> None /\ tzinfo march_end <> None
  /\ valid_type "national" = true
  /\ (exists res, fst march_run = Ok res)
  /\ diff (_nearest_hh march_end) (_nearest_hh march_start)
     = days 13 + minutes (23 * 60 + 30)
  /\ ceil_div (diff (_nearest_hh march_end) (_nearest_hh march_start))
              (days 14) = 1
  /\ Z.of_nat (List.length (gets (snd march_run))) = 2
  /\ Z.of_nat (List.length (gets (snd march_run)))
     <> (if 0 <? diff (_nearest_hh march_end) (_nearest_hh march_start)
         then ceil_div (diff (_nearest_hh march_end)
                             (_nearest_hh march_start)) (days 14)
         else 0).
Proof.
  split; [discriminate|]. split; [discriminate|].
  split; [reflexivity|].
  split; [eexists; vm_compute; reflexivity|].
  split; [vm_compute; reflexivity|].
  split; [vm_compute; reflexivity|].
  split; [vm_compute; reflexivity|].
  vm_compute. discriminate.
Qed.

(** C9 as it was stated fails when the zone changes its offset inside a
    window.  With both ends on the clock of [london], from 00:00 on
    12 October to 23:30 on 25 October, the one window requested runs from
    23:00 UTC on 11 October to 23:30 UTC on 25 October: 14 days and
    30 minutes, more than [maxRange].  From 01:30 to 02:00 on 29 March,
    the one window requested runs from 01:30 UTC to 01:00 UTC: its
    length is negative, with the cursor before the end. *)
Lemma between_window_length_same_zone :
  tzinfo october_start <> None /\ tzinfo october_end <> None
  /\ tzinfo gap_start <> None /\ tzinfo gap_end <> None
  /\ valid_type "national" = true
  /\ (exists u,
        requested (snd october_run) = [u]
        /\ Time.ltb (url_from u) (_nearest_hh october_end) = true
        /\ utc (url_to u) - utc (url_from u) = days 14 + minutes 30
        /\ ~ (utc (url_to u) - utc (url_from u) <= days 14 - minutes 30)
        /\ ~ (utc (url_to u) - utc (url_from u) < days 14))
  /\ (exists u,
        requested (snd gap_run) = [u]
        /\ Time.ltb (url_from u) (_nearest_hh gap_end) = true
        /\ utc (url_to u) - utc (url_from u) = - minutes 30
        /\ ~ (0 <= utc (url_to u) - utc (url_from u))).
Proof.
  split; [discriminate|]. split; [discriminate|].
  split; [discriminate|]. split; [discriminate|].
  split; [reflexivity|].
  split.
  - eexists. split; [vm_compute; reflexivity|].
    split; [vm_compute; reflexivity|].
    split; [vm_compute; reflexivity|].
    split; vm_compute; intros H; [apply H; reflexivity | discriminate H].
  - eexists. split; [vm_compute; reflexivity|].
    split; [vm_compute; reflexivity|].
    split; [vm_compute; reflexivity|].
    vm_compute. intros H. apply H. reflexivity.
Qed.

Lemma between_result_shape_witness :
  regional_run
  = (Ok (fst regional_result, snd regional_result), snd regional_run)
  /\ fst regional_result <> None /\ snd regional_result <> None.
Proof.
  assert (Hrun : regional_run
                 = (Ok (fst regional_result, snd regional_result),
                    snd regional_run))
    by (vm_compute; reflexivity).
  split; [exact Hrun|].
  apply (between_result_shape (fixed_page regional_page) keep_cell 3
           range_start range_end "Regional" []
           (fst regional_result) (snd regional_result) (snd regional_run)
           Hrun).
  - reflexivity.
  - vm_compute. reflexivity.
Defined.

End Witnesses.


(** * Further properties of the code *)

(** ** [_nearest_hh] on all inputs and on whole seconds *)

Section RoundingMore.

Lemma nearest_hh_least (dt b : datetime) :
  microsecond dt = 0 -> on_half_hour b -> us dt <= us b ->
  us (_nearest_hh dt) <= us b.
Proof.
  intros Hu Hb Hle.
  destruct (nearest_hh_whole_seconds dt Hu) as [Hr [_ Hlt]].
  apply half_hour_iff in Hr, Hb.
  pose proof (Z.div_mod (us (_nearest_hh dt)) 1800000000 ltac:(lia)) as Dr.
  pose proof (Z.div_mod (us b) 1800000000 ltac:(lia)) as Db.
  rewrite Hr in Dr. rewrite Hb in Db.
  unfold minutes, timedelta in Hlt. lia.
Qed.

(** X1.  The result is never before the input and never more than half
    an hour after it, and it keeps the time zone; this holds for every
    input, microseconds or not. *)
Theorem nearest_hh_bounds (dt : datetime) :
  us dt <= us (_nearest_hh dt) <= us dt + minutes 30
  /\ tzinfo (_nearest_hh dt) = tzinfo dt.
Proof.
  split; [|apply nearest_hh_tzinfo].
  destruct (nearest_hh_formula dt) as [[_ ->] | [_ ->]].
  - unfold minutes, timedelta. lia.
  - simpl. unfold minutes, timedelta.
    pose proof (clock_split_dt dt) as Hc.
    pose proof (Z.div_mod (us dt) 1800000000 ltac:(lia)) as Hd.
    pose proof (Z.mod_pos_bound (us dt) 1800000000 ltac:(lia)) as Hb.
    pose proof (Z.mod_pos_bound (minute dt) 30 ltac:(lia)) as Bm.
    pose proof (second_bound dt) as Bs.
    pose proof (microsecond_bound dt) as Bu.
    lia.
Qed.

(** X2.  For an input with no microseconds the result is the least
    half-hour boundary that is not before the input. *)
Theorem nearest_hh_least_boundary (dt : datetime) :
  microsecond dt = 0 ->
  on_half_hour (_nearest_hh dt)
  /\ us dt <= us (_nearest_hh dt)
  /\ forall b, on_half_hour b -> us dt <= us b ->
               us (_nearest_hh dt) <= us b.
Proof.
  intros Hu. destruct (nearest_hh_whole_seconds dt Hu) as [Hr [Hle _]].
  split; [exact Hr|]. split; [exact Hle|].
  intros b Hb Hdb. now apply nearest_hh_least.
Qed.

(** X3.  Rounding an input with no microseconds twice is rounding it
    once. *)
Theorem nearest_hh_idempotent (dt : datetime) :
  microsecond dt = 0 -> _nearest_hh (_nearest_hh dt) = _nearest_hh dt.
Proof.
  intros Hu. apply nearest_hh_fixed.
  now destruct (nearest_hh_whole_seconds dt Hu).
Qed.

(** X4.  On inputs with no microseconds rounding keeps the order of the
    wall clocks: an earlier input never rounds to a later result. *)
Theorem nearest_hh_monotone (a b : datetime) :
  microsecond a = 0 -> microsecond b = 0 -> us a <= us b ->
  us (_nearest_hh a) <= us (_nearest_hh b).
Proof.
  intros Ha Hb Hle.
  destruct (nearest_hh_whole_seconds b Hb) as [Hrb [Hleb _]].
  apply nearest_hh_least; [exact Ha | exact Hrb | lia].
Qed.

End RoundingMore.

(** ** [_fetch_url]: success, waits and edge cases *)

Section FetchMore.

Variable server : Server.
Variable self : CarbonIntensityAPI.
Variable url : Url.
Variable w : World.

Lemma total_doubling (n : nat) :
  forall d, total (doubling d n) = d * (2 ^ Z.of_nat n - 1).
Proof.
  induction n as [|n IH]; intros d.
  - simpl. lia.
  - cbn [doubling total fold_right]. fold (total (doubling (d * 2) n)).
    rewrite IH, Nat2Z.inj_succ, Z.pow_succ_r by lia. lia.
Qed.

Lemma get_for_backoff (os : list Outcome) :
  forall d, Forall (get_for url (headers self))
                   (backoff url (headers self) d os).
Proof.
  induction os as [|o os IH]; intros d; simpl; constructor.
  - split; reflexivity.
  - constructor; [exact I | apply IH].
Qed.

(** X5.  When [_fetch_url] returns a page, the trace ends with a GET that
    passed the status check and whose decoded body is the page returned;
    every GET before it met a 4xx/5xx status. *)
Theorem fetch_url_returns_last_body (j : Json) :
  fst (_fetch_url server self url w) = Ok j ->
  exists pre st,
    snd (_fetch_url server self url w)
    = w ++ pre ++ [EvGet url (headers self) (Responded st (Some j))]
    /\ server (w ++ pre) url = Responded st (Some j)
    /\ failure_status st = false
    /\ forallb attempt_failed (gets pre) = true.
Proof.
  destruct (fetch_url_run server self url w)
    as (os & e & Hos & Hend & Hserved & Hrun).
  rewrite Hrun; simpl. intros Hok.
  destruct e as [|st [j'|]|te]; simpl in Hok; try discriminate.
  injection Hok as ->.
  exists (backoff url (headers self) 1 os), st.
  split; [reflexivity|].
  apply served_app in Hserved as [_ [Hsrv _]].
  split; [now symmetry|]. split; [apply Hend|].
  apply failed_backoff. exact Hos.
Qed.

(** X6.  The waits of one call add up to [2^k - 1], where [k] is the
    number of attempts that met a 4xx/5xx status; with [retries >= 0]
    that is at most [2^(retries + 1) - 1]. *)
Theorem fetch_url_total_wait :
  0 <= retries self ->
  exists ext,
    snd (_fetch_url server self url w) = w ++ ext
    /\ total (sleeps ext)
       = 2 ^ Z.of_nat (List.length (filter attempt_failed ext)) - 1
    /\ total (sleeps ext) <= 2 ^ (retries self + 1) - 1.
Proof.
  intros Hr.
  destruct (fetch_url_run server self url w)
    as (os & e & Hos & Hend & Hserved & Hrun).
  exists (backoff url (headers self) 1 os ++ ending_events url (headers self) e).
  rewrite Hrun; simpl. split; [reflexivity|].
  assert (Hf : forall d, List.length
                 (filter attempt_failed (backoff url (headers self) d os))
               = List.length os).
  { clear Hend Hserved Hrun.
    induction Hos as [|o os Ho _ IH]; intros d; simpl; [reflexivity|].
    rewrite Ho. simpl. now rewrite IH. }
  assert (Hs : sleeps (backoff url (headers self) 1 os
                       ++ ending_events url (headers self) e)
               = doubling 1 (List.length os)).
  { rewrite sleeps_app, sleeps_backoff.
    destruct e; simpl; now rewrite app_nil_r. }
  assert (Hk : List.length
                 (filter attempt_failed
                    (backoff url (headers self) 1 os
                     ++ ending_events url (headers self) e))
               = List.length os).
  { rewrite filter_app, length_app, Hf.
    destruct e as [|st b|te]; simpl in *; try lia.
    destruct Hend as [-> _]. simpl. lia. }
  rewrite Hs, Hk, total_doubling.
  split; [lia|].
  assert (Hle : Z.of_nat (List.length os) <= retries self + 1)
    by (destruct e; simpl in Hend; lia).
  pose proof (Z.pow_le_mono_r 2 _ _ ltac:(lia) Hle). lia.
Qed.

(** X7.  Every GET of a call is for the URL given, with the headers of
    the object: a retry never changes the request. *)
Theorem fetch_url_same_request :
  exists ext,
    snd (_fetch_url server self url w) = w ++ ext
    /\ Forall (get_for url (headers self)) ext.
Proof.
  destruct (fetch_url_run server self url w)
    as (os & e & _ & _ & _ & Hrun).
  exists (backoff url (headers self) 1 os ++ ending_events url (headers self) e).
  rewrite Hrun; simpl. split; [reflexivity|].
  apply Forall_app. split; [apply get_for_backoff|].
  destruct e; simpl; repeat constructor.
Qed.

Lemma fetch_url_answered (st : Z) (j : Json) :
  0 <= retries self ->
  server w url = Responded st (Some j) ->
  failure_status st = false ->
  _fetch_url server self url w
  = (Ok j, w ++ [EvGet url (headers self) (Responded st (Some j))]).
Proof.
  intros Hr Hsrv Hst. unfold _fetch_url.
  rewrite fetch_loop_step by (simpl; apply Z.ltb_lt; lia).
  rewrite attempt_cases, Hsrv, Hst.
  rewrite fetch_loop_exit by reflexivity. reflexivity.
Qed.

(** X8.  When the first answer passes the status check and decodes, the
    page is returned after that single GET, with no wait. *)
Theorem fetch_url_first_answer (st : Z) (j : Json) :
  0 <= retries self ->
  server w url = Responded st (Some j) ->
  failure_status st = false ->
  _fetch_url server self url w
  = (Ok j, w ++ [EvGet url (headers self) (Responded st (Some j))]).
Proof. apply fetch_url_answered. Qed.

(** Against a server that always answers with a failure status the call
    uses all its attempts and raises the communication error. *)
Lemma fetch_url_exhausted :
  (forall w' u, http_failure (server w' u) = true) ->
  exists os,
    _fetch_url server self url w
    = (Raise (Exception msg_communication),
       w ++ backoff url (headers self) 1 os)
    /\ List.length os = Z.to_nat (retries self + 1).
Proof.
  intros Hfail.
  destruct (fetch_url_run server self url w)
    as (os & e & Hos & Hend & Hserved & Hrun).
  exists os. rewrite Hrun.
  destruct e as [|st b|te]; simpl in *.
  - rewrite app_nil_r. split; [reflexivity | exact Hend].
  - apply served_app in Hserved as [_ [Hsrv _]].
    pose proof (Hfail (w ++ backoff url (headers self) 1 os) url) as Hf.
    rewrite <- Hsrv in Hf. simpl in Hf.
    destruct Hend as [Hst _]. congruence.
  - apply served_app in Hserved as [_ [Hsrv _]].
    pose proof (Hfail (w ++ backoff url (headers self) 1 os) url) as Hf.
    rewrite <- Hsrv in Hf. discriminate.
Qed.

(** No call makes more GETs than it has attempts. *)
Lemma fetch_url_gets_bound :
  exists ext,
    snd (_fetch_url server self url w) = w ++ ext
    /\ (List.length (gets ext) <= Z.to_nat (retries self + 1))%nat.
Proof.
  destruct (fetch_url_run server self url w)
    as (os & e & _ & Hend & _ & Hrun).
  exists (backoff url (headers self) 1 os ++ ending_events url (headers self) e).
  rewrite Hrun. split; [reflexivity|].
  rewrite gets_app, length_app, gets_backoff, length_map.
  destruct e; simpl in *; lia.
Qed.

(** X9.  With a negative [retries] the loop is never entered: the
    communication error is raised without any request or wait. *)
Theorem fetch_url_negative_retries :
  retries self < 0 ->
  _fetch_url server self url w = (Raise (Exception msg_communication), w).
Proof.
  intros Hr. unfold _fetch_url.
  rewrite fetch_loop_exit; [reflexivity|].
  simpl. apply Z.ltb_ge. lia.
Qed.

End FetchMore.

(** ** [_parse_fromto_json]: shapes, defaults and errors *)

Section ParseMore.

Variable to_datetime : Cell -> Result Cell.

Lemma mapM_Forall2 {A B} (f : A -> Result B) (l : list A) :
  forall r, Py.mapM f l = Ok r -> Forall2 (fun a b => f a = Ok b) l r.
Proof.
  induction l as [|a l IH]; intros r H; simpl in H.
  - injection H as <-. constructor.
  - apply rbind_ok in H as (b & Hb & H).
    apply rbind_ok in H as (bs & Hbs & H). injection H as <-.
    constructor; [exact Hb | now apply IH].
Qed.

Lemma mapM_length {A B} (f : A -> Result B) (l : list A) (r : list B) :
  Py.mapM f l = Ok r -> List.length r = List.length l.
Proof.
  intros H. apply mapM_Forall2 in H. symmetry.
  induction H; simpl; congruence.
Qed.

Lemma mapM_Forall {A B} (f : A -> Result B) (P : B -> Prop) (l : list A)
    (r : list B) :
  Py.mapM f l = Ok r -> (forall a b, f a = Ok b -> P b) -> Forall P r.
Proof.
  intros H HP. apply mapM_Forall2 in H.
  induction H; constructor; eauto.
Qed.

(** Converting the first cell of a row keeps its other cells. *)
Lemma update_head (row row' : list Cell) :
  update_nth 0 to_datetime row = Ok row' ->
  List.length row' = List.length row /\ tl row' = tl row
  /\ (forall c, hd_error row = Some c ->
                exists c', to_datetime c = Ok c' /\ hd_error row' = Some c').
Proof.
  destruct row as [|c row]; simpl; intros H.
  - injection H as <-. repeat split. intros c [=].
  - apply rbind_ok in H as (c' & Hc & H). injection H as <-.
    repeat split. intros c0 [= <-]. now exists c'.
Qed.

Lemma convert_timestamp (cols : list string) (data : list (list Cell))
    (df : DataFrame) :
  convert_column to_datetime "timestamp"
                 (DataFrame_ data ("timestamp" :: cols)) = Ok df ->
  columns df = "timestamp" :: cols
  /\ Py.mapM (update_nth 0 to_datetime) data = Ok (rows df).
Proof.
  unfold convert_column, DataFrame_; simpl. intros H.
  apply rbind_ok in H as (rs & Hrs & H). injection H as <-.
  split; [reflexivity | exact Hrs].
Qed.

Lemma convert_rows_length (n : nat) (data : list (list Cell)) :
  forall rs,
    Py.mapM (update_nth 0 to_datetime) data = Ok rs ->
    Forall (fun row => List.length row = n) data ->
    Forall (fun row => List.length row = n) rs.
Proof.
  induction data as [|row data IH]; intros rs H Hn; simpl in H.
  - injection H as <-. constructor.
  - apply rbind_ok in H as (row' & Hrow & H).
    apply rbind_ok in H as (rs' & Hrs & H). injection H as <-.
    inversion Hn as [|? ? Hlen Hrest]; subst.
    constructor; [|now apply IH].
    now apply update_head in Hrow as [-> _].
Qed.

Lemma national_row_length (d : Json) (row : list Cell) :
  national_row d = Ok row -> List.length row = 4%nat.
Proof.
  unfold national_row. intros H.
  repeat (apply rbind_ok in H as (? & _ & H)). now injection H as <-.
Qed.

(** X10.  For "national", a response whose "data" is a list parses, when
    it parses, to one table with the columns timestamp, forecast, actual
    and index, one row per item of the list, four cells in every row. *)
Theorem parse_national_table (m : list (string * Json)) (items : list Json)
    (p : Parsed) :
  Py.assoc "data" m = Some (JArr items) ->
  _parse_fromto_json to_datetime (JObj m) "national" = Ok p ->
  exists d,
    p = Table d
    /\ columns d = ["timestamp"; "forecast"; "actual"; "index"]
    /\ List.length (rows d) = List.length items
    /\ Forall (fun row => List.length row = 4%nat) (rows d).
Proof.
  intros Hdata H. unfold _parse_fromto_json in H. simpl in H.
  unfold Py.dict_getitem in H. rewrite Hdata in H. simpl in H.
  apply rbind_ok in H as (data_list & Hrows & H).
  apply rbind_ok in H as (d & Hconv & H). injection H as <-.
  apply convert_timestamp in Hconv as [Hcols Hconv].
  exists d. split; [reflexivity|]. split; [exact Hcols|].
  split.
  - rewrite (mapM_length _ _ _ Hconv). now apply mapM_length in Hrows.
  - apply (convert_rows_length _ _ _ Hconv).
    apply (mapM_Forall _ _ _ _ Hrows). apply national_row_length.
Qed.

(** X12.  A response object without "data" raises [KeyError] for that
    key, and a response that is not an object raises [TypeError], in
    either mode. *)
Theorem parse_without_data (type_ : string) :
  (forall m, Py.assoc "data" m = None ->
             _parse_fromto_json to_datetime (JObj m) type_
             = Raise (KeyError "data"))
  /\ (forall response,
         (forall m, response <> JObj m) ->
         _parse_fromto_json to_datetime response type_ = Raise TypeError).
Proof.
  split.
  - intros m Hm. unfold _parse_fromto_json, Py.getitem, Py.dict_getitem.
    rewrite Hm. destruct (String.eqb type_ "national"); reflexivity.
  - intros response Hno. unfold _parse_fromto_json.
    destruct response; try (destruct (String.eqb type_ "national");
                            reflexivity).
    now contradiction (Hno members).
Qed.

(** X14.  An empty "data" list is not an error: the result is the empty
    table, or pair of empty tables, with the columns of the mode. *)
Theorem parse_empty_data (m : list (string * Json)) (type_ : string) :
  Py.assoc "data" m = Some (JArr []) ->
  _parse_fromto_json to_datetime (JObj m) type_
  = Ok (if String.eqb type_ "national"
        then Table (mkDF ["timestamp"; "forecast"; "actual"; "index"] [])
        else Tables
               (mkDF ["timestamp"; "regionid"; "forecast"; "actual"; "index"]
                     [])
               (mkDF (["timestamp"; "regionid"] ++ fuel_mix_labels) [])).
Proof.
  intros Hm. unfold _parse_fromto_json, Py.getitem, Py.dict_getitem.
  rewrite Hm. destruct (String.eqb type_ "national"); reflexivity.
Qed.

Lemma region_rows_same (datum region : Json) (pr : list Cell * list Cell) :
  region_rows datum region = Ok pr -> same_region pr.
Proof.
  unfold region_rows, carbon_row. intros H.
  apply rbind_ok in H as (crow & Hc & H).
  apply rbind_ok in Hc as (t & Ht & Hc).
  apply rbind_ok in Hc as (r & Hr & Hc).
  apply rbind_ok in Hc as (i1 & _ & Hc).
  apply rbind_ok in Hc as (forecast & _ & Hc).
  apply rbind_ok in Hc as (i2 & _ & Hc).
  apply rbind_ok in Hc as (actual & _ & Hc).
  apply rbind_ok in Hc as (i3 & _ & Hc).
  apply rbind_ok in Hc as (index & _ & Hc). injection Hc as <-.
  apply rbind_ok in H as (gm & _ & H).
  apply rbind_ok in H as (fs & _ & H).
  apply rbind_ok in H as (fuel_mix & _ & H).
  apply rbind_ok in H as (t' & Ht' & H).
  apply rbind_ok in H as (r' & Hr' & H).
  apply rbind_ok in H as (shares & Hsh & H). injection H as <-.
  rewrite Ht in Ht'. injection Ht' as <-.
  rewrite Hr in Hr'. injection Hr' as <-.
  apply mapM_length in Hsh.
  exists t, r, [forecast; actual; Val index], shares. simpl.
  split; [reflexivity|]. split; [reflexivity|]. split; [reflexivity|].
  exact Hsh.
Qed.

Lemma datum_rows_same (datum : Json) (prs : list (list Cell * list Cell)) :
  datum_rows datum = Ok prs -> Forall same_region prs.
Proof.
  unfold datum_rows. intros H.
  apply rbind_ok in H as (rs & _ & H).
  apply rbind_ok in H as (regions & _ & H).
  apply (mapM_Forall _ _ _ _ H). apply region_rows_same.
Qed.

Lemma converted_rows_aligned (pairs : list (list Cell * list Cell)) :
  forall rc rg,
    Forall same_region pairs ->
    Py.mapM (update_nth 0 to_datetime) (map fst pairs) = Ok rc ->
    Py.mapM (update_nth 0 to_datetime) (map snd pairs) = Ok rg ->
    Forall2 (fun a b => firstn 2 a = firstn 2 b) rc rg
    /\ Forall (fun row => List.length row = 5%nat) rc
    /\ Forall (fun row => List.length row = 11%nat) rg.
Proof.
  induction pairs as [|pr pairs IH]; intros rc rg Hall Hc Hg; simpl in *.
  - injection Hc as <-. injection Hg as <-. repeat constructor.
  - apply rbind_ok in Hc as (c' & Hc' & Hc).
    apply rbind_ok in Hc as (rc' & Hrc & Hc). injection Hc as <-.
    apply rbind_ok in Hg as (g' & Hg' & Hg).
    apply rbind_ok in Hg as (rg' & Hrg & Hg). injection Hg as <-.
    inversion Hall as [|? ? Hpr Hrest]; subst.
    destruct (IH rc' rg' Hrest Hrc Hrg) as (Hal & H5 & H11).
    destruct Hpr as (t & r & rest & shares & Hf & Hlr & Hs & Hls).
    rewrite Hf in Hc'. rewrite Hs in Hg'. simpl in Hc', Hg'.
    apply rbind_ok in Hc' as (ts & Hts & Hc'). injection Hc' as <-.
    apply rbind_ok in Hg' as (ts' & Hts' & Hg'). injection Hg' as <-.
    rewrite Hts in Hts'. injection Hts' as <-.
    repeat split; constructor; simpl; try assumption; try reflexivity; lia.
Qed.

(** X11.  For a mode other than "national", a response whose "data" is a
    list parses, when it parses, to two tables with the columns of the
    carbon table and of the generation-mix table.  They have the same
    number of rows, five and eleven cells per row, and row by row the
    same first two cells (timestamp and region). *)
Theorem parse_regional_tables (m : list (string * Json)) (items : list Json)
    (type_ : string) (p : Parsed) :
  String.eqb type_ "national" = false ->
  Py.assoc "data" m = Some (JArr items) ->
  _parse_fromto_json to_datetime (JObj m) type_ = Ok p ->
  exists c g,
    p = Tables c g
    /\ columns c = ["timestamp"; "regionid"; "forecast"; "actual"; "index"]
    /\ columns g = ["timestamp"; "regionid"; "biomass"; "coal"; "imports";
                   "gas"; "nuclear"; "other"; "hydro"; "solar"; "wind"]
    /\ Forall2 (fun a b => firstn 2 a = firstn 2 b) (rows c) (rows g)
    /\ Forall (fun row => List.length row = 5%nat) (rows c)
    /\ Forall (fun row => List.length row = 11%nat) (rows g).
Proof.
  intros Ht Hdata H. unfold _parse_fromto_json in H. rewrite Ht in H.
  simpl in H. unfold Py.dict_getitem in H. rewrite Hdata in H. simpl in H.
  apply rbind_ok in H as (per_datum & Hper & H).
  apply rbind_ok in H as (c & Hc & H).
  apply rbind_ok in H as (g & Hg & H). injection H as <-.
  apply convert_timestamp in Hc as [Hcc Hc].
  apply convert_timestamp in Hg as [Hcg Hg].
  exists c, g. split; [reflexivity|]. split; [exact Hcc|].
  split; [exact Hcg|].
  apply (converted_rows_aligned (List.concat per_datum)); try assumption.
  apply Forall_concat.
  apply (mapM_Forall _ _ _ _ Hper). apply datum_rows_same.
Qed.

Lemma national_row_item (d t : Json) (i : list (string * Json)) :
  national_item d t i ->
  national_row d
  = match Py.assoc "index" i with
    | Some x => Ok [Val t; cell_or_nan i "forecast"; cell_or_nan i "actual";
                    Val x]
    | None => Raise (KeyError "index")
    end.
Proof.
  intros (md & -> & Hto & Hint).
  unfold national_row, Py.getitem, Py.dict_getitem, cell_or_nan.
  rewrite Hto, Hint. simpl.
  destruct (Py.assoc "index" i); reflexivity.
Qed.

(** X13.  For "national", take a response whose "data" is a list.  When
    every item has its "to", its "intensity" and the index in it, and
    every "to" converts, the result is the table with one row per item,
    in the order of the list, where a missing forecast or actual value is
    [nan].  When an item after such items lacks the index, the call
    raises [KeyError] for "index". *)
Theorem parse_national_defaults (m : list (string * Json))
    (items : list Json) :
  Py.assoc "data" m = Some (JArr items) ->
  (forall rws,
      Forall2 (fun d row =>
                 exists t i x ts,
                   national_item d t i /\ Py.assoc "index" i = Some x
                   /\ to_datetime (Val t) = Ok ts
                   /\ row = [ts; cell_or_nan i "forecast";
                             cell_or_nan i "actual"; Val x])
              items rws ->
      _parse_fromto_json to_datetime (JObj m) "national"
      = Ok (Table (mkDF ["timestamp"; "forecast"; "actual"; "index"] rws)))
  /\ (forall pre d post t i,
         items = pre ++ d :: post ->
         Forall (fun d' => exists t' i' x,
                     national_item d' t' i' /\ Py.assoc "index" i' = Some x)
                pre ->
         national_item d t i -> Py.assoc "index" i = None ->
         _parse_fromto_json to_datetime (JObj m) "national"
         = Raise (KeyError "index")).
Proof.
  intros Hdata.
  unfold _parse_fromto_json, Py.getitem, Py.dict_getitem.
  change (String.eqb "national" "national") with true. cbv iota.
  rewrite Hdata. cbn [Py.rbind Py.iter].
  split.
  - intros rws Hall.
    assert (H : exists data_list,
               Py.mapM national_row items = Ok data_list
               /\ Py.mapM (update_nth 0 to_datetime) data_list = Ok rws).
    { clear Hdata. induction Hall as [|d row items' rws' Hd _ IH].
      - exists []. split; reflexivity.
      - destruct Hd as (t & i & x & ts & Hitem & Hidx & Hts & ->).
        destruct IH as (data_list & Hrows & Hconv).
        exists ([Val t; cell_or_nan i "forecast"; cell_or_nan i "actual";
                 Val x] :: data_list).
        split.
        + cbn [Py.mapM]. rewrite (national_row_item d t i Hitem), Hidx.
          cbn [Py.rbind]. rewrite Hrows. reflexivity.
        + cbn [Py.mapM]. rewrite Hconv. cbn [update_nth Py.rbind].
          rewrite Hts. reflexivity. }
    destruct H as (data_list & -> & Hconv).
    unfold convert_column, DataFrame_. cbn [Py.rbind columns rows].
    simpl index_of. cbv iota beta. rewrite Hconv. reflexivity.
  - intros pre d post t i -> Hpre Hitem Hidx.
    assert (H : Py.mapM national_row (pre ++ d :: post)
                = Raise (KeyError "index")).
    { clear Hdata. induction Hpre as [|d' pre' Hd' _ IH].
      - cbn [app Py.mapM]. rewrite (national_row_item d t i Hitem), Hidx.
        reflexivity.
      - destruct Hd' as (t' & i' & x & Hitem' & Hidx').
        cbn [app Py.mapM]. rewrite (national_row_item d' t' i' Hitem'), Hidx'.
        cbn [Py.rbind]. rewrite IH. reflexivity. }
    rewrite H. reflexivity.
Qed.

End ParseMore.

(** ** [between]: how page fetches and parsing compose *)

Section BetweenMore.

Variable server : Server.
Variable to_datetime : Cell -> Result Cell.
Variable retries_ : Z.
Variables (start end_ : datetime) (type_ : string).
Variable w : World.

Let self := __init__ retries_.
Let s := _nearest_hh start.
Let e := _nearest_hh end_.
Let page (i : nat) : Url :=
  window (base_url self) (endpoint_of (Py.lower type_)) (days 14) e s i.

(** X15.  A page that decodes but that the parser refuses stops the call
    at the first request: the parser's exception is raised as it is, not
    the communication error. *)
Theorem between_parse_error (st : Z) (j : Json) (ex : PyExc) :
  0 <= retries_ ->
  tzinfo start <> None -> tzinfo end_ <> None -> valid_type type_ = true ->
  Time.ltb s e = true ->
  (forall w' u, server w' u = Responded st (Some j)) ->
  failure_status st = false ->
  _parse_fromto_json to_datetime j (Py.lower type_) = Raise ex ->
  between server to_datetime self start end_ type_ w
  = (Raise ex, w ++ [EvGet (page 0) (headers self) (Responded st (Some j))]).
Proof.
  intros Hr Hs He Hv Hlt Hsrv Hst Hparse. unfold self, s, e, page in *.
  destruct (between_valid server to_datetime retries_ start end_ type_
                          Hs He Hv) as [pos ->].
  rewrite between_loop_step by exact Hlt.
  unfold between_body, bind, query_api, lift.
  rewrite (fetch_url_reliable server (__init__ retries_) st j Hr Hsrv Hst).
  rewrite Hparse. rewrite window_0. reflexivity.
Qed.

(** X16.  Against a server that always answers with a 4xx/5xx status, a
    call with a non-empty range raises the communication error after
    [retries + 1] requests, all of them for the first window: later
    windows are never requested. *)
Theorem between_first_page_fails :
  tzinfo start <> None -> tzinfo end_ <> None -> valid_type type_ = true ->
  Time.ltb s e = true ->
  (forall w' u, http_failure (server w' u) = true) ->
  exists ext,
    between server to_datetime self start end_ type_ w
    = (Raise (Exception msg_communication), w ++ ext)
    /\ requested ext = repeat (page 0) (Z.to_nat (retries_ + 1)).
Proof.
  intros Hs He Hv Hlt Hfail. unfold self, s, e, page in *.
  destruct (between_valid server to_datetime retries_ start end_ type_
                          Hs He Hv) as [pos ->].
  rewrite between_loop_step by exact Hlt.
  unfold between_body, bind, query_api.
  destruct (fetch_url_exhausted server (__init__ retries_)
              (mkUrl (base_url (__init__ retries_))
                     (endpoint_of (Py.lower type_))
                     (_nearest_hh start)
                     (request_end_of (days 14) (_nearest_hh end_)
                                     (_nearest_hh start)))
              w Hfail) as (os & Hrun & Hlen).
  rewrite Hrun.
  eexists. split; [reflexivity|].
  rewrite requested_backoff, Hlen, window_0. reflexivity.
Qed.

End BetweenMore.

Section LoopMore.

Variable server : Server.
Variable to_datetime : Cell -> Result Cell.
Variable self : CarbonIntensityAPI.
Variables (type_ endpoint : string) (mr : timedelta_t) (mr_pos : 0 < mr).
Variable end_ : datetime.

Let loop := between_loop server to_datetime self type_ endpoint mr mr_pos end_.
Let body := between_body server to_datetime self type_ endpoint mr end_.
Let page_url (rs : datetime) : Url :=
  mkUrl (base_url self) endpoint rs (request_end_of mr end_ rs).

Let fuel (rs : datetime) : nat :=
  pages_left mr (limit end_ (tzinfo rs)) (us rs).

(** A GET cut by a transport exception ends the loop there, with that
    exception. *)
Lemma between_loop_abort :
  forall (n : nat) rs c g w,
    fuel rs = n ->
    exists ext,
      snd (loop rs c g w) = w ++ ext
      /\ forall pre u h te post,
           ext = pre ++ EvGet u h (Aborted te) :: post ->
           post = [] /\ fst (loop rs c g w) = Raise (Transport te).
Proof.
  induction n as [|n IH]; intros rs c g w Hn.
  - exists []. rewrite app_nil_r.
    unfold loop. rewrite between_loop_exit by now apply (fuel_0 mr mr_pos).
    split; [reflexivity|]. intros [|] ? ? ? ? [=].
  - destruct (Time.ltb rs end_) eqn:Hlt.
    2:{ exists []. rewrite app_nil_r. unfold loop.
        rewrite between_loop_exit by assumption.
        split; [reflexivity|]. intros [|] ? ? ? ? [=]. }
    unfold loop. rewrite between_loop_step by assumption.
    destruct (body_run server to_datetime self type_ endpoint mr end_
                       rs c g w)
      as (os & en & Hsnd & Hos & _ & Hraise & Hok & _ & _).
    fold body in Hsnd, Hraise, Hok |- *.
    fold (page_url rs) in Hsnd. rewrite Forall_forall in Hos.
    assert (Hin1 : forall pre u h te post,
               backoff (page_url rs) (headers self) 1 os
               ++ ending_events (page_url rs) (headers self) en
               = pre ++ EvGet u h (Aborted te) :: post ->
               post = [] /\ en = Broken te).
    { intros pre u h te post Heq.
      destruct (backoff_split _ _ _ _ _ _ _ _ _ _ Heq)
        as [[Hin _] | (pre' & _ & Hrest)].
      - apply Hos in Hin. discriminate.
      - destruct en; simpl in Hrest.
        + destruct pre'; discriminate.
        + destruct pre' as [|x [|y pre']]; discriminate.
        + destruct pre' as [|x [|y pre']]; try discriminate.
          injection Hrest as _ _ Hte Hnil. subst. split; reflexivity. }
    set (ext1 := backoff (page_url rs) (headers self) 1 os
                 ++ ending_events (page_url rs) (headers self) en) in *.
    destruct (body rs c g w) as [[[c' g']|x] w1] eqn:Hb;
      simpl in Hsnd, Hraise, Hok; subst w1.
    + destruct (Hok _ eq_refl) as (st & j & Hen).
      destruct (IH (add rs mr) c' g' (w ++ ext1)
                   (fuel_next mr mr_pos end_ rs n Hlt Hn)) as (ext2 & Hsnd2 & H2).
      exists (ext1 ++ ext2).
      fold loop. rewrite Hsnd2, app_assoc. split; [reflexivity|].
      intros pre u h te post Heq.
      apply app_eq_app in Heq as [l [[H1 Hl] | [Hpre Hl]]].
      * destruct l as [|x l].
        -- simpl in Hl. apply (H2 [] u h te post). now symmetry.
        -- injection Hl as <- _.
           destruct (Hin1 _ _ _ _ _ H1) as [_ Habs]. congruence.
      * apply (H2 l u h te post). exact Hl.
    + exists ext1. split; [reflexivity|].
      intros pre u h te post Heq.
      destruct (Hin1 _ _ _ _ _ Heq) as [-> Hen].
      split; [reflexivity|]. simpl. apply Hraise. now rewrite Hen.
Qed.

End LoopMore.

(** The loop against a server whose answer depends on the URL only and
    always parses. *)
Section AnsweringServer.

Variable server : Server.
Variable to_datetime : Cell -> Result Cell.
Variable self : CarbonIntensityAPI.
Variables (type_ endpoint : string) (mr : timedelta_t) (mr_pos : 0 < mr).
Variable end_ : datetime.
Variables (st : Z) (answer : Url -> Json) (tables : Url -> Parsed).

Hypothesis retries_nonneg : 0 <= retries self.
Hypothesis answers : forall w u, server w u = Responded st (Some (answer u)).
Hypothesis good_status : failure_status st = false.
Hypothesis good_pages :
  forall u, _parse_fromto_json to_datetime (answer u) type_ = Ok (tables u).

Lemma accumulate_rows (acc new r : option DataFrame) :
  accumulate acc new = Ok r -> rows_of r = rows_of acc ++ rows_of new.
Proof.
  destruct acc as [a|]; simpl.
  - destruct new as [b|]; simpl; intros [= <-]; simpl;
      now rewrite ?app_nil_r.
  - now intros [= <-].
Qed.

Lemma body_answered rs c g w :
  let u := mkUrl (base_url self) endpoint rs (request_end_of mr end_ rs) in
  exists c' g',
    between_body server to_datetime self type_ endpoint mr end_ rs c g w
    = (Ok (c', g'),
       w ++ [EvGet u (headers self) (Responded st (Some (answer u)))])
    /\ rows_of c' = rows_of c ++ rows (carbon_part (tables u))
    /\ rows_of g' = rows_of g ++ rows_of (mix_part (tables u)).
Proof.
  intros u. unfold between_body, bind, query_api, lift, ret. fold u.
  rewrite (fetch_url_answered server self u w st (answer u)
             retries_nonneg (answers w u) good_status).
  rewrite good_pages.
  pose proof (parse_shape _ _ _ _ (good_pages u)) as Hshape.
  unfold carbon_of, gen_mix_of.
  destruct (String.eqb type_ "national").
  - destruct Hshape as [d ->].
    destruct (accumulate_ok c (Some d)) as (c' & Hc & _).
    destruct (accumulate_ok g None) as (g' & Hg & _).
    rewrite Hc, Hg. exists c', g'. split; [reflexivity|].
    split; [apply (accumulate_rows _ _ _ Hc) | apply (accumulate_rows _ _ _ Hg)].
  - destruct Hshape as (cd & gd & ->).
    destruct (accumulate_ok c (Some cd)) as (c' & Hc & _).
    destruct (accumulate_ok g (Some gd)) as (g' & Hg & _).
    rewrite Hc, Hg. exists c', g'. split; [reflexivity|].
    split; [apply (accumulate_rows _ _ _ Hc) | apply (accumulate_rows _ _ _ Hg)].
Qed.

Lemma flat_map_seq_shift {B} (f : nat -> list B) (n : nat) :
  flat_map f (seq 1 n) = flat_map (fun i => f (S i)) (seq 0 n).
Proof.
  rewrite <- seq_shift. induction (seq 0 n) as [|i l IH]; simpl;
    [reflexivity | now rewrite IH].
Qed.

(** The loop runs as many windows as the loop test lets in, and the rows
    of the result are those of their pages, window after window. *)
Lemma between_loop_answered :
  forall (n : nat) rs c g w,
    pages_left mr (limit end_ (tzinfo rs)) (us rs) = n ->
    exists c' g' ext k,
      between_loop server to_datetime self type_ endpoint mr mr_pos end_
                   rs c g w = (Ok (c', g'), w ++ ext)
      /\ rows_of c'
         = rows_of c
           ++ flat_map (fun i => rows (carbon_part
                          (tables (window (base_url self) endpoint mr end_
                                          rs i))))
                       (seq 0 k)
      /\ rows_of g'
         = rows_of g
           ++ flat_map (fun i => rows_of (mix_part
                          (tables (window (base_url self) endpoint mr end_
                                          rs i))))
                       (seq 0 k)
      /\ (forall i, (i < k)%nat ->
                    Time.ltb (add rs (Z.of_nat i * mr)) end_ = true)
      /\ Time.ltb (add rs (Z.of_nat k * mr)) end_ = false.
Proof.
  assert (Hstop : forall rs c g w,
             Time.ltb rs end_ = false ->
             exists c' g' ext k,
               between_loop server to_datetime self type_ endpoint mr mr_pos
                            end_ rs c g w = (Ok (c', g'), w ++ ext)
               /\ rows_of c'
                  = rows_of c
                    ++ flat_map (fun i => rows (carbon_part
                                   (tables (window (base_url self) endpoint mr
                                                   end_ rs i))))
                                (seq 0 k)
               /\ rows_of g'
                  = rows_of g
                    ++ flat_map (fun i => rows_of (mix_part
                                   (tables (window (base_url self) endpoint mr
                                                   end_ rs i))))
                                (seq 0 k)
               /\ (forall i, (i < k)%nat ->
                             Time.ltb (add rs (Z.of_nat i * mr)) end_ = true)
               /\ Time.ltb (add rs (Z.of_nat k * mr)) end_ = false).
  { intros rs c g w Hge. exists c, g, [], 0%nat. rewrite !app_nil_r.
    rewrite between_loop_exit by exact Hge.
    repeat split; [lia | now rewrite add_0]. }
  induction n as [|n IH]; intros rs c g w Hn.
  - apply Hstop. now apply (fuel_0 mr mr_pos).
  - destruct (Time.ltb rs end_) eqn:Hlt; [|now apply Hstop].
    rewrite between_loop_step by exact Hlt.
    destruct (body_answered rs c g w) as (c1 & g1 & -> & Hc1 & Hg1).
    destruct (IH (add rs mr) c1 g1
                 (w ++ [EvGet (mkUrl (base_url self) endpoint rs
                                     (request_end_of mr end_ rs))
                              (headers self)
                              (Responded st
                                 (Some (answer
                                    (mkUrl (base_url self) endpoint rs
                                       (request_end_of mr end_ rs)))))])
                 (fuel_next mr mr_pos end_ rs n Hlt Hn))
      as (c' & g' & ext & k & Hrun & Hc & Hg & Hin & Hout).
    exists c', g'. eexists. exists (S k). rewrite Hrun, <- app_assoc.
    split; [reflexivity|].
    rewrite Hc, Hg, Hc1, Hg1, <- !app_assoc.
    cbn [seq flat_map]. rewrite !flat_map_seq_shift, window_0.
    split; [|split; [|split]].
    + f_equal; f_equal; apply flat_map_ext; intros i;
        now rewrite window_next.
    + f_equal; f_equal; apply flat_map_ext; intros i;
        now rewrite window_next.
    + intros [|i] Hi.
      * now rewrite add_0.
      * specialize (Hin i ltac:(lia)). rewrite add_add in Hin.
        now rewrite Nat2Z.inj_succ, Z.mul_succ_l, Z.add_comm.
    + rewrite add_add in Hout.
      now rewrite Nat2Z.inj_succ, Z.mul_succ_l, Z.add_comm.
Qed.

End AnsweringServer.

Section WindowMore.

Variables (base endpoint : string) (mr : timedelta_t) (mr_pos : 0 < mr).
Variables (end_ start : datetime).

(** The clock on which the cursor is compared with [end_]: the wall
    clock when the two share their [tzinfo], the instant when the
    [tzinfo] of [start] has a fixed offset. *)
Variable key : datetime -> Z.
Hypothesis key_ltb :
  forall rs, tzinfo rs = tzinfo start ->
             Time.ltb rs end_ = (key rs <? key end_).
Hypothesis key_add :
  forall rs d, tzinfo rs = tzinfo start -> key (add rs d) = key rs + d.
Hypothesis key_diff :
  forall rs, tzinfo rs = tzinfo start -> diff end_ rs = key end_ - key rs.

Let page := window base endpoint mr end_ start.

Lemma key_window_end (i : nat) :
  key (sub (add (add start (Z.of_nat i * mr)) mr) (minutes 30))
  = key start + Z.of_nat i * mr + mr - minutes 30.
Proof.
  change (sub (add (add start (Z.of_nat i * mr)) mr) (minutes 30))
    with (add (add (add start (Z.of_nat i * mr)) mr) (- minutes 30)).
  rewrite !key_add by reflexivity. lia.
Qed.

(** A window that is not the last ends half an hour before the next one
    starts. *)
Lemma window_gap (i : nat) :
  (S i < pages_left mr (key end_) (key start))%nat ->
  diff (url_from (page (S i))) (url_to (page i)) = minutes 30.
Proof.
  intros Hi. pose proof (page_before_end mr _ _ _ mr_pos Hi) as Hlt.
  rewrite Nat2Z.inj_succ, Z.mul_succ_l in Hlt.
  unfold page, window. cbn [url_from url_to].
  unfold Time.min.
  rewrite key_ltb by reflexivity. rewrite key_window_end.
  replace (key start + Z.of_nat i * mr + mr - minutes 30 <? key end_)
    with true
    by (symmetry; apply Z.ltb_lt; unfold minutes, timedelta; lia).
  rewrite diff_wall by apply same_tzinfo_refl.
  unfold add, sub. cbn [us]. rewrite Nat2Z.inj_succ. lia.
Qed.

Lemma pages_left_reached :
  forall (n : nat) (stop cur : Z),
    pages_left mr stop cur = n -> stop <= cur + Z.of_nat n * mr.
Proof.
  induction n as [|n IH]; intros stop cur Hn.
  - destruct (Z_lt_dec cur stop) as [Hlt|]; [|lia].
    rewrite pages_left_step in Hn by assumption. discriminate.
  - destruct (Z_lt_dec cur stop) as [Hlt|]; [|lia].
    rewrite pages_left_step in Hn by assumption.
    specialize (IH stop (cur + mr) ltac:(now injection Hn)). lia.
Qed.

(** The last window ends at the end of the range or up to half an hour
    before it. *)
Lemma last_window (k : nat) :
  pages_left mr (key end_) (key start) = S k ->
  0 <= diff end_ (url_to (page k)) <= minutes 30.
Proof.
  intros Hn. pose proof (pages_left_reached _ _ _ Hn) as Hreach.
  rewrite Nat2Z.inj_succ, Z.mul_succ_l in Hreach.
  unfold page, window. cbn [url_from url_to].
  unfold Time.min.
  rewrite key_ltb by reflexivity. rewrite key_window_end.
  destruct (key start + Z.of_nat k * mr + mr - minutes 30 <? key end_)
    eqn:Hmin.
  - apply Z.ltb_lt in Hmin. rewrite key_diff by reflexivity.
    rewrite key_window_end. unfold minutes, timedelta in *. lia.
  - rewrite diff_wall by apply same_tzinfo_refl.
    unfold minutes, timedelta. lia.
Qed.

(** The count of windows the loop test lets in is the count of pages
    left. *)
Lemma pages_by_test (n : nat) :
  (forall i, (i < n)%nat ->
             Time.ltb (add start (Z.of_nat i * mr)) end_ = true) ->
  Time.ltb (add start (Z.of_nat n * mr)) end_ = false ->
  n = pages_left mr (key end_) (key start).
Proof.
  intros Hin Hout.
  rewrite key_ltb, key_add in Hout by reflexivity. apply Z.ltb_ge in Hout.
  destruct (lt_eq_lt_dec n (pages_left mr (key end_) (key start)))
    as [[Hlt | Heq] | Hgt]; [|exact Heq|].
  - pose proof (page_before_end mr _ _ _ mr_pos Hlt). lia.
  - specialize (Hin _ Hgt).
    rewrite key_ltb, key_add in Hin by reflexivity. apply Z.ltb_lt in Hin.
    pose proof (pages_left_reached _ _ _ eq_refl : 
                  key end_ <= key start
                              + Z.of_nat (pages_left mr (key end_) (key start))
                                * mr).
    lia.
Qed.

Lemma nth_error_pages (f : nat -> Url) (n i : nat) (u : Url) :
  nth_error (map f (seq 0 n)) i = Some u -> (i < n)%nat /\ u = f i.
Proof.
  rewrite nth_error_map, nth_error_seq.
  destruct (Nat.ltb i n) eqn:Hi; simpl; [|discriminate].
  intros [= <-]. split; [now apply Nat.ltb_lt | reflexivity].
Qed.

Lemma last_page (f : nat -> Url) (n : nat) (pre : list Url) (u : Url) :
  map f (seq 0 n) = pre ++ [u] -> exists k, n = S k /\ u = f k.
Proof.
  destruct n as [|k]; [destruct pre; discriminate|].
  rewrite seq_S, map_app. simpl. intros H.
  apply app_inj_tail in H as [_ <-]. now exists k.
Qed.

End WindowMore.

Section LowerFacts.

Lemma lower_ascii_idempotent (c : ascii) :
  Py.lower_ascii (Py.lower_ascii c) = Py.lower_ascii c.
Proof.
  destruct c as [[] [] [] [] [] [] [] []]; vm_compute; reflexivity.
Qed.

Lemma lower_idempotent (x : string) : Py.lower (Py.lower x) = Py.lower x.
Proof.
  induction x as [|c x IH]; simpl; [reflexivity|].
  now rewrite lower_ascii_idempotent, IH.
Qed.

End LowerFacts.

Section BetweenComposed.

Variable server : Server.
Variable to_datetime : Cell -> Result Cell.
Variable retries_ : Z.
Variables (start end_ : datetime) (type_ : string).
Variable w : World.

Let self := __init__ retries_.
Let s := _nearest_hh start.
Let e := _nearest_hh end_.
Let page (i : nat) : Url :=
  window (base_url self) (endpoint_of (Py.lower type_)) (days 14) e s i.
Let pages : nat := pages_left (days 14) (utc e) (utc s).

(** Either the arguments are refused, or the call is its loop. *)
Lemma between_cases :
  (exists ex, between server to_datetime self start end_ type_ w
              = (Raise ex, w))
  \/ exists pos : 0 < days 14,
       between server to_datetime self start end_ type_
       = between_loop server to_datetime self
                      (Py.lower type_) (endpoint_of (Py.lower type_))
                      (days 14) pos e s None None.
Proof.
  unfold self, s, e.
  destruct (tzinfo start) as [zs|] eqn:Hs.
  2:{ left. destruct (between_rejects server to_datetime (__init__ retries_)
                        start end_ type_ w (or_introl Hs)) as (ex & Hex & _).
      now exists ex. }
  destruct (tzinfo end_) as [ze|] eqn:He.
  2:{ left. destruct (between_rejects server to_datetime (__init__ retries_)
                        start end_ type_ w (or_intror (or_introl He)))
        as (ex & Hex & _).
      now exists ex. }
  destruct (valid_type type_) eqn:Hv.
  - right. apply between_valid; congruence.
  - left. destruct (between_rejects server to_datetime (__init__ retries_)
                      start end_ type_ w (or_intror (or_intror Hv)))
      as (ex & Hex & _).
    now exists ex.
Qed.

(** X17.  Whatever the server does, the requests of a call come window
    after window with at most [retries + 1] GETs for each window, and a
    call whose arguments are refused makes none. *)
Theorem between_request_bound :
  exists ext counts,
    snd (between server to_datetime self start end_ type_ w) = w ++ ext
    /\ requested ext = blocks page 0 counts
    /\ Forall (fun k => (k <= Z.to_nat (retries_ + 1))%nat) counts
    /\ (tzinfo start = None \/ tzinfo end_ = None
        \/ valid_type type_ = false -> ext = []).
Proof.
  assert (Hrefused : forall ext,
             snd (between server to_datetime self start end_ type_ w)
             = w ++ ext ->
             tzinfo start = None \/ tzinfo end_ = None
             \/ valid_type type_ = false -> ext = []).
  { intros ext Hsnd Hbad.
    destruct (between_rejects server to_datetime self start end_ type_ w
                              Hbad) as (ex & Hex & _).
    rewrite Hex in Hsnd. simpl in Hsnd.
    rewrite <- (app_nil_r w) in Hsnd at 1.
    apply app_inv_head in Hsnd. now symmetry. }
  destruct between_cases as [[ex Hex] | [pos Heq]].
  - exists [], []. rewrite Hex, app_nil_r.
    split; [reflexivity|]. split; [reflexivity|]. split; [constructor|].
    reflexivity.
  - destruct (between_loop_trace server to_datetime self
                (Py.lower type_) (endpoint_of (Py.lower type_)) (days 14) pos
                e _ s None None w eq_refl)
      as (ext & counts & Hsnd & _ & Hreq & _ & Hmax & _).
    rewrite <- Heq in Hsnd.
    exists ext, counts. split; [exact Hsnd|]. split; [exact Hreq|].
    split; [exact Hmax|]. now apply Hrefused.
Qed.

(** X21.  A transport exception on any GET of a call is the last event of
    the call, and the call raises that exception as it is: pages fetched
    before it are not returned. *)
Theorem between_transport_error :
  exists ext,
    snd (between server to_datetime self start end_ type_ w) = w ++ ext
    /\ forall pre u h te post,
         ext = pre ++ EvGet u h (Aborted te) :: post ->
         post = []
         /\ fst (between server to_datetime self start end_ type_ w)
            = Raise (Transport te).
Proof.
  destruct between_cases as [[ex Hex] | [pos Heq]].
  - exists []. rewrite Hex, app_nil_r. split; [reflexivity|].
    intros [|] ? ? ? ? [=].
  - rewrite Heq.
    apply (between_loop_abort server to_datetime self
             (Py.lower type_) (endpoint_of (Py.lower type_)) (days 14) pos
             e _ s None None w eq_refl).
Qed.

(** X18.  Take [start] and [end] that share one [tzinfo] object, or a
    [start] whose [tzinfo] has a fixed offset.  Against a server that
    always answers with the same valid page, each request window starts
    exactly 30 minutes after the one before it ends, and the last one
    ends at the rounded end or up to 30 minutes before it. *)
Theorem between_windows_contiguous (st : Z) (j : Json) (p : Parsed) :
  0 <= retries_ ->
  tzinfo start <> None -> tzinfo end_ <> None -> valid_type type_ = true ->
  same_tzinfo (tzinfo start) (tzinfo end_) = true
  \/ fixed_offset (tzinfo start) ->
  (forall w' u, server w' u = Responded st (Some j)) ->
  failure_status st = false ->
  _parse_fromto_json to_datetime j (Py.lower type_) = Ok p ->
  exists res ext,
    between server to_datetime self start end_ type_ w = (Ok res, w ++ ext)
    /\ (forall i u1 u2,
           nth_error (requested ext) i = Some u1 ->
           nth_error (requested ext) (S i) = Some u2 ->
           diff (url_from u2) (url_to u1) = minutes 30)
    /\ (forall pre u,
           requested ext = pre ++ [u] ->
           0 <= diff e (url_to u) <= minutes 30).
Proof.
  intros Hr Hs He Hv Hzone Hsrv Hst Hparse. unfold self, s, e in *.
  destruct (between_valid server to_datetime retries_ start end_ type_
                          Hs He Hv) as [pos ->].
  rewrite <- (nearest_hh_tzinfo start), <- (nearest_hh_tzinfo end_) in Hzone.
  destruct (cursor_clock _ _ Hzone) as (key & Hltb & Hadd & Hdiff).
  destruct (between_loop_reliable server to_datetime (__init__ retries_)
              (Py.lower type_) (endpoint_of (Py.lower type_)) (days 14) pos
              (_nearest_hh end_) st j p key (tzinfo (_nearest_hh start))
              Hltb Hadd Hr Hsrv Hst Hparse
              (pages_left (days 14) (key (_nearest_hh end_))
                          (key (_nearest_hh start)))
              (_nearest_hh start) None None w eq_refl eq_refl)
    as (res & ext & Hrun & _ & Hreq & _).
  exists res, ext. split; [exact Hrun|]. rewrite Hreq. split.
  - intros i u1 u2 H1 H2.
    apply nth_error_pages in H1 as [_ ->].
    apply nth_error_pages in H2 as [Hi ->].
    now apply (window_gap _ _ (days 14) pos _ _ key Hltb Hadd).
  - intros pre u Hlast.
    apply last_page in Hlast as (k & Hk & ->).
    now apply (last_window _ _ (days 14) pos _ _ key Hltb Hadd Hdiff).
Qed.

(** X20.  Against a server whose page depends on the URL only and always
    parses, the rows of the result are the rows of the pages, in the
    order of the windows: all rows of window 0, then all rows of
    window 1, and so on, for both tables.  The windows are those the
    loop test lets in, up to the first cursor that is not before the
    rounded end; when the [tzinfo] of [start] has a fixed offset there
    are [pages] of them. *)
Theorem between_rows_in_page_order (st : Z) (answer : Url -> Json)
    (tables : Url -> Parsed) :
  0 <= retries_ ->
  tzinfo start <> None -> tzinfo end_ <> None -> valid_type type_ = true ->
  (forall w' u, server w' u = Responded st (Some (answer u))) ->
  failure_status st = false ->
  (forall u, _parse_fromto_json to_datetime (answer u) (Py.lower type_)
             = Ok (tables u)) ->
  exists carbon gen_mix ext n,
    between server to_datetime self start end_ type_ w
    = (Ok (carbon, gen_mix), w ++ ext)
    /\ rows_of carbon
       = flat_map (fun i => rows (carbon_part (tables (page i))))
                  (seq 0 n)
    /\ rows_of gen_mix
       = flat_map (fun i => rows_of (mix_part (tables (page i))))
                  (seq 0 n)
    /\ (forall i, (i < n)%nat -> Time.ltb (url_from (page i)) e = true)
    /\ Time.ltb (add s (Z.of_nat n * days 14)) e = false
    /\ (fixed_offset (tzinfo start) -> n = pages).
Proof.
  intros Hr Hs He Hv Hsrv Hst Hparse.
  unfold self, s, e, page, pages in *.
  destruct (between_valid server to_datetime retries_ start end_ type_
                          Hs He Hv) as [pos ->].
  destruct (between_loop_answered server to_datetime (__init__ retries_)
              (Py.lower type_) (endpoint_of (Py.lower type_)) (days 14) pos
              (_nearest_hh end_) st answer tables
              Hr Hsrv Hst Hparse _
              (_nearest_hh start) None None w eq_refl)
    as (carbon & gen_mix & ext & n & Hrun & Hc & Hg & Hin & Hout).
  exists carbon, gen_mix, ext, n.
  split; [exact Hrun|]. split; [exact Hc|]. split; [exact Hg|].
  split; [exact Hin|]. split; [exact Hout|].
  intros Hfixed.
  rewrite <- (nearest_hh_tzinfo start) in Hfixed.
  apply (pages_by_test (days 14) pos (_nearest_hh end_) (_nearest_hh start)
           utc
           (fun rs Hrs =>
              ltb_instant rs (_nearest_hh end_) ltac:(now rewrite Hrs))
           (fun rs d Hrs => utc_add rs d ltac:(now rewrite Hrs))
           n Hin Hout).
Qed.

End BetweenComposed.

(** X19.  The mode is read through [lower] only: a call with any
    spelling of the mode is the call with its lower-case spelling. *)
Theorem between_case_insensitive (server : Server)
    (to_datetime : Cell -> Result Cell) (self : CarbonIntensityAPI)
    (start end_ : datetime) (type_ : string) :
  between server to_datetime self start end_ (Py.lower type_)
  = between server to_datetime self start end_ type_.
Proof.
  unfold between. rewrite lower_idempotent. reflexivity.
Qed.

(** ** The further properties at concrete inputs *)

Section MoreWitnesses.

Import Examples.

Lemma nearest_hh_least_boundary_witness :
  microsecond (at_time 12 1 0 0 utc_tz) = 0
  /\ on_half_hour (_nearest_hh (at_time 12 1 0 0 utc_tz))
  /\ us (at_time 12 1 0 0 utc_tz) <= us (_nearest_hh (at_time 12 1 0 0 utc_tz)).
Proof.
  assert (H : microsecond (at_time 12 1 0 0 utc_tz) = 0)
    by (vm_compute; reflexivity).
  split; [exact H|].
  destruct (nearest_hh_least_boundary (at_time 12 1 0 0 utc_tz) H)
    as (Hb & Hle & _).
  split; assumption.
Defined.

Lemma nearest_hh_idempotent_witness :
  microsecond (at_time 12 31 7 0 utc_tz) = 0
  /\ _nearest_hh (_nearest_hh (at_time 12 31 7 0 utc_tz))
     = _nearest_hh (at_time 12 31 7 0 utc_tz).
Proof.
  assert (H : microsecond (at_time 12 31 7 0 utc_tz) = 0)
    by (vm_compute; reflexivity).
  split; [exact H|].
  exact (nearest_hh_idempotent (at_time 12 31 7 0 utc_tz) H).
Defined.

Lemma nearest_hh_monotone_witness :
  microsecond (at_time 12 1 0 0 utc_tz) = 0
  /\ microsecond (at_time 12 29 59 0 utc_tz) = 0
  /\ us (at_time 12 1 0 0 utc_tz) <= us (at_time 12 29 59 0 utc_tz)
  /\ us (_nearest_hh (at_time 12 1 0 0 utc_tz))
     <= us (_nearest_hh (at_time 12 29 59 0 utc_tz)).
Proof.
  assert (Ha : microsecond (at_time 12 1 0 0 utc_tz) = 0)
    by (vm_compute; reflexivity).
  assert (Hb : microsecond (at_time 12 29 59 0 utc_tz) = 0)
    by (vm_compute; reflexivity).
  assert (Hle : us (at_time 12 1 0 0 utc_tz) <= us (at_time 12 29 59 0 utc_tz))
    by (vm_compute; discriminate).
  repeat (split; [assumption|]).
  exact (nearest_hh_monotone _ _ Ha Hb Hle).
Defined.

Lemma fetch_url_returns_last_body_witness :
  fst (_fetch_url (third_time national_page) (__init__ 3) some_url [])
  = Ok national_page
  /\ exists pre st,
       snd (_fetch_url (third_time national_page) (__init__ 3) some_url [])
       = [] ++ pre ++ [EvGet some_url (headers (__init__ 3))
                             (Responded st (Some national_page))]
       /\ forallb attempt_failed (gets pre) = true.
Proof.
  assert (H : fst (_fetch_url (third_time national_page) (__init__ 3)
                              some_url []) = Ok national_page)
    by (vm_compute; reflexivity).
  split; [exact H|].
  destruct (fetch_url_returns_last_body (third_time national_page)
              (__init__ 3) some_url [] national_page H)
    as (pre & st & Hsnd & _ & _ & Hall).
  exists pre, st. split; assumption.
Defined.

Lemma fetch_url_total_wait_witness :
  0 <= retries (__init__ 3)
  /\ exists ext,
       snd (_fetch_url always_500 (__init__ 3) some_url []) = [] ++ ext
       /\ total (sleeps ext) <= 2 ^ (retries (__init__ 3) + 1) - 1.
Proof.
  assert (H0 : 0 <= retries (__init__ 3)) by (simpl; lia).
  split; [exact H0|].
  destruct (fetch_url_total_wait always_500 (__init__ 3) some_url [] H0)
    as (ext & Hsnd & _ & Hle).
  exists ext. split; assumption.
Defined.

Lemma fetch_url_first_answer_witness :
  0 <= retries (__init__ 0)
  /\ fixed_page national_page [] some_url = Responded 200 (Some national_page)
  /\ failure_status 200 = false
  /\ _fetch_url (fixed_page national_page) (__init__ 0) some_url []
     = (Ok national_page,
        [] ++ [EvGet some_url (headers (__init__ 0))
                     (Responded 200 (Some national_page))]).
Proof.
  assert (H0 : 0 <= retries (__init__ 0)) by (simpl; lia).
  assert (H1 : fixed_page national_page [] some_url
               = Responded 200 (Some national_page)) by reflexivity.
  assert (H2 : failure_status 200 = false) by reflexivity.
  repeat (split; [assumption|]).
  exact (fetch_url_first_answer (fixed_page national_page) (__init__ 0)
           some_url [] 200 national_page H0 H1 H2).
Defined.

Lemma fetch_url_negative_retries_witness :
  retries (__init__ (-1)) < 0
  /\ _fetch_url (fixed_page national_page) (__init__ (-1)) some_url []
     = (Raise (Exception msg_communication), []).
Proof.
  assert (H : retries (__init__ (-1)) < 0) by (simpl; lia).
  split; [exact H|].
  exact (fetch_url_negative_retries (fixed_page national_page)
           (__init__ (-1)) some_url [] H).
Defined.

Lemma parse_national_table_witness :
  _parse_fromto_json keep_cell national_page "national" = Ok national_table
  /\ exists d, national_table = Table d /\ List.length (rows d) = 1%nat.
Proof.
  assert (Hp : _parse_fromto_json keep_cell national_page "national"
               = Ok national_table) by (vm_compute; reflexivity).
  split; [exact Hp|].
  pose proof Hp as Hq. unfold national_page in Hq.
  match type of Hq with
  | _parse_fromto_json _ (JObj [(_, JArr ?items)]) _ = _ =>
      destruct (parse_national_table keep_cell [("data", JArr items)] items
                  national_table eq_refl Hq) as (d & Hd & _ & Hlen & _)
  end.
  exists d. split; [exact Hd | exact Hlen].
Defined.

Lemma parse_regional_tables_witness :
  String.eqb "regional" "national" = false
  /\ exists c g,
       _parse_fromto_json keep_cell regional_page "regional"
       = Ok (Tables c g)
       /\ Forall2 (fun a b => firstn 2 a = firstn 2 b) (rows c) (rows g).
Proof.
  split; [reflexivity|].
  destruct (_parse_fromto_json keep_cell regional_page "regional")
    as [p|ex] eqn:Hp; [|exfalso; vm_compute in Hp; discriminate].
  unfold regional_page in Hp.
  match type of Hp with
  | _parse_fromto_json _ (JObj [(_, JArr ?items)]) _ = _ =>
      destruct (parse_regional_tables keep_cell [("data", JArr items)] items
                  "regional" p eq_refl eq_refl Hp)
        as (c & g & -> & _ & _ & Hal & _)
  end.
  exists c, g. split; [reflexivity | exact Hal].
Defined.

Lemma parse_national_defaults_witness :
  Py.assoc "data" two_items_page = Some (JArr two_items)
  /\ _parse_fromto_json keep_cell (JObj two_items_page) "national"
     = Ok (Table (mkDF ["timestamp"; "forecast"; "actual"; "index"]
                       [[Val (JStr "2020-04-01T00:30Z"); Val (JNum 210 0); NaN;
                         Val (JStr "moderate")];
                        [Val (JStr "2020-04-01T01:00Z"); NaN; NaN;
                         Val (JStr "low")]])).
Proof.
  assert (Hdata : Py.assoc "data" two_items_page = Some (JArr two_items))
    by reflexivity.
  split; [exact Hdata|].
  apply (proj1 (parse_national_defaults keep_cell two_items_page two_items
                  Hdata)).
  constructor.
  - exists (JStr "2020-04-01T00:30Z"),
      [("forecast", JNum 210 0); ("index", JStr "moderate")],
      (JStr "moderate"), (Val (JStr "2020-04-01T00:30Z")).
    split; [|repeat split; reflexivity].
    eexists. repeat split; reflexivity.
  - constructor; [|constructor].
    exists (JStr "2020-04-01T01:00Z"), [("index", JStr "low")],
      (JStr "low"), (Val (JStr "2020-04-01T01:00Z")).
    split; [|repeat split; reflexivity].
    eexists. repeat split; reflexivity.
Defined.

Lemma parse_empty_data_witness :
  Py.assoc "data" [("data", JArr [])] = Some (JArr [])
  /\ _parse_fromto_json keep_cell (JObj [("data", JArr [])]) "regional"
     = Ok (Tables
             (mkDF ["timestamp"; "regionid"; "forecast"; "actual"; "index"] [])
             (mkDF (["timestamp"; "regionid"] ++ fuel_mix_labels) [])).
Proof.
  split; [reflexivity|].
  exact (parse_empty_data keep_cell [("data", JArr [])] "regional" eq_refl).
Defined.

Lemma between_parse_error_witness :
  0 <= 3 /\ tzinfo range_start <> None /\ tzinfo range_end <> None
  /\ valid_type "national" = true
  /\ Time.ltb (_nearest_hh range_start) (_nearest_hh range_end) = true
  /\ _parse_fromto_json keep_cell (JObj []) (Py.lower "national")
     = Raise (KeyError "data")
  /\ fst (between (fixed_page (JObj [])) keep_cell (__init__ 3)
                  range_start range_end "national" [])
     = Raise (KeyError "data").
Proof.
  assert (H0 : 0 <= 3) by lia.
  assert (Hs : tzinfo range_start <> None) by discriminate.
  assert (He : tzinfo range_end <> None) by discriminate.
  assert (Hv : valid_type "national" = true) by reflexivity.
  assert (Hlt : Time.ltb (_nearest_hh range_start) (_nearest_hh range_end)
                = true) by (vm_compute; reflexivity).
  assert (Hp : _parse_fromto_json keep_cell (JObj []) (Py.lower "national")
               = Raise (KeyError "data")) by reflexivity.
  repeat (split; [assumption|]).
  rewrite (between_parse_error (fixed_page (JObj [])) keep_cell 3
             range_start range_end "national" [] 200 (JObj [])
             (KeyError "data") H0 Hs He Hv Hlt (fun _ _ => eq_refl)
             eq_refl Hp).
  reflexivity.
Defined.

Lemma between_first_page_fails_witness :
  tzinfo range_start <> None /\ tzinfo range_end <> None
  /\ valid_type "regional" = true
  /\ Time.ltb (_nearest_hh range_start) (_nearest_hh range_end) = true
  /\ exists ext,
       between always_500 keep_cell (__init__ 3)
               range_start range_end "regional" []
       = (Raise (Exception msg_communication), [] ++ ext)
       /\ List.length (requested ext) = 4%nat.
Proof.
  assert (Hs : tzinfo range_start <> None) by discriminate.
  assert (He : tzinfo range_end <> None) by discriminate.
  assert (Hv : valid_type "regional" = true) by reflexivity.
  assert (Hlt : Time.ltb (_nearest_hh range_start) (_nearest_hh range_end)
                = true) by (vm_compute; reflexivity).
  repeat (split; [assumption|]).
  destruct (between_first_page_fails always_500 keep_cell 3
              range_start range_end "regional" [] Hs He Hv Hlt
              (fun _ _ => eq_refl)) as (ext & Hrun & Hreq).
  exists ext. split; [exact Hrun|].
  rewrite Hreq, repeat_length. reflexivity.
Defined.

Lemma between_windows_contiguous_witness :
  0 <= 3 /\ tzinfo range_start <> None /\ tzinfo range_end <> None
  /\ valid_type "national" = true
  /\ (same_tzinfo (tzinfo range_start) (tzinfo range_end) = true
      \/ fixed_offset (tzinfo range_start))
  /\ _parse_fromto_json keep_cell national_page (Py.lower "national")
     = Ok national_table
  /\ exists res ext,
       between (fixed_page national_page) keep_cell (__init__ 3)
               range_start range_end "national" [] = (Ok res, [] ++ ext)
       /\ forall pre u,
            requested ext = pre ++ [u] ->
            0 <= diff (_nearest_hh range_end) (url_to u) <= minutes 30.
Proof.
  assert (H0 : 0 <= 3) by lia.
  assert (Hs : tzinfo range_start <> None) by discriminate.
  assert (He : tzinfo range_end <> None) by discriminate.
  assert (Hv : valid_type "national" = true) by reflexivity.
  assert (Hz : same_tzinfo (tzinfo range_start) (tzinfo range_end) = true
               \/ fixed_offset (tzinfo range_start))
    by (right; intros x y; reflexivity).
  assert (Hp : _parse_fromto_json keep_cell national_page
                 (Py.lower "national") = Ok national_table)
    by (vm_compute; reflexivity).
  repeat (split; [assumption|]).
  destruct (between_windows_contiguous (fixed_page national_page) keep_cell 3
              range_start range_end "national" [] 200 national_page
              national_table H0 Hs He Hv Hz (fun _ _ => eq_refl) eq_refl Hp)
    as (res & ext & Hrun & _ & Hlast).
  exists res, ext. split; assumption.
Defined.

Lemma between_rows_in_page_order_witness :
  0 <= 3 /\ tzinfo range_start <> None /\ tzinfo range_end <> None
  /\ valid_type "national" = true
  /\ (forall u, _parse_fromto_json keep_cell (echo_page u)
                  (Py.lower "national") = Ok (echo_table u))
  /\ exists carbon gen_mix ext,
       between echo_server keep_cell (__init__ 3)
               range_start range_end "national" []
       = (Ok (carbon, gen_mix), [] ++ ext)
       /\ List.length (rows_of carbon) = 2%nat.
Proof.
  assert (H0 : 0 <= 3) by lia.
  assert (Hs : tzinfo range_start <> None) by discriminate.
  assert (He : tzinfo range_end <> None) by discriminate.
  assert (Hv : valid_type "national" = true) by reflexivity.
  assert (Hp : forall u, _parse_fromto_json keep_cell (echo_page u)
                           (Py.lower "national") = Ok (echo_table u))
    by (intros u; reflexivity).
  repeat (split; [assumption|]).
  destruct (between_rows_in_page_order echo_server keep_cell 3
              range_start range_end "national" [] 200 echo_page echo_table
              H0 Hs He Hv (fun _ _ => eq_refl) eq_refl Hp)
    as (carbon & gen_mix & ext & n & Hrun & Hrows & _ & _ & _ & Hn).
  exists carbon, gen_mix, ext. split; [exact Hrun|].
  rewrite Hrows, (Hn (fun x y => eq_refl)). vm_compute. reflexivity.
Defined.

End MoreWitnesses.
